(** * Enhanced trading bot: strategy selection and position ledger

    Shallow embedding of [src/examples/enhanced_trading_bot.py]
    (class [EnhancedTradingBot]) and the properties of its strategy
    dispatch, its ledger ([positions], [trade_history]) and the gates
    of [analyze_symbol].

    Conventions of the embedding.
    - A Python [float] is a binary64 number: [PrimFloat.float] with the
      IEEE operations of the kernel.  JSON numbers of the service's
      answers and the numeric literals of the source ([50000], [100])
      are taken at their binary64 value.
    - A Python [str] is a [string]; each character stands for the code
      point with the same number (0..255).
    - The dictionaries of the source are records, one field per key the
      code reads.  A key whose presence decides a behaviour of the code
      is an [option] field, and reading it when absent raises
      [KeyError].
    - Methods are computations in a state-and-exception monad over
      [World]: the bot object, the remote service, an abstract clock
      behind [datetime.now()] and [time.sleep] (in seconds; only
      [time.sleep] advances it), the number of calls to
      [requests.post] made so far, and the record of the calls made to
      [execute_strategy] and to the ledger methods, in call order.  A
      raised exception keeps the state reached when it was raised, as
      in Python.
    - Logging is not modelled; with the typed fields above no
      formatting of a log message can raise.
      [display_portfolio_status] only logs and is left out of
      [run_trading_cycle]. *)

From Stdlib Require Import ZArith String Ascii List Bool Lia Floats.
Import ListNotations.

Set Warnings "-inexact-float".

Local Open Scope string_scope.
Local Open Scope list_scope.
Local Open Scope Z_scope.

(* ===================================================================== *)
(** * Python builtins used by the bot *)
(* ===================================================================== *)

Module Py.

(** Exceptions that the modelled code can meet.  [RequestException]
    stands for the class [requests.exceptions.RequestException] and
    its subclasses. *)
Inductive exn : Type :=
| KeyError (key : string)
| ValueError (msg : string)
| TypeError (msg : string)
| RequestException (msg : string).

Definition is_request_exception (e : exn) : bool :=
  match e with
  | RequestException _ => true
  | _ => false
  end.

(** ** [str.replace(old, '')] for a one-character [old] *)

Fixpoint remove_char (c : ascii) (s : string) : string :=
  match s with
  | EmptyString => EmptyString
  | String a rest =>
      if Ascii.eqb a c then remove_char c rest
      else String a (remove_char c rest)
  end.

(** ** [float(str)]

    CPython's [PyFloat_FromString]: white space is stripped at both
    ends, underscores are accepted between two digits only, and what
    remains is a decimal literal ([sign] digits [. digits]
    [e [sign] digits], with a digit in the integer or the fraction
    part) or one of [inf], [infinity], [nan] with an optional sign, in
    any letter case.  The decimal value is rounded to the nearest
    binary64 number, ties to even. *)

(** White space at the ends: the six ASCII characters of [Py_ISSPACE],
    and the two Unicode spaces below 256 (NEL and the no-break
    space), which CPython turns into blanks beforehand. *)
Definition is_space (c : ascii) : bool :=
  let n := N_of_ascii c in
  (((9 <=? n) && (n <=? 13)) || (n =? 32) || (n =? 133) || (n =? 160))%N.

Definition is_digit (c : ascii) : bool :=
  let n := N_of_ascii c in ((48 <=? n) && (n <=? 57))%N.

Definition digit_value (c : ascii) : Z := Z.of_N (N_of_ascii c) - 48.

Definition lower (c : ascii) : ascii :=
  let n := N_of_ascii c in
  if ((65 <=? n) && (n <=? 90))%N then ascii_of_N (n + 32) else c.

Fixpoint lstrip (cs : list ascii) : list ascii :=
  match cs with
  | c :: rest => if is_space c then lstrip rest else cs
  | [] => []
  end.

Definition strip (cs : list ascii) : list ascii :=
  rev (lstrip (rev (lstrip cs))).

(** [_Py_string_to_number_with_underscores]: [prev] is the previous
    character, if any.  An underscore must follow a digit and precede a
    digit. *)
Fixpoint drop_underscores (prev : option ascii) (cs : list ascii)
  : option (list ascii) :=
  match cs with
  | [] =>
      match prev with
      | Some "_"%char => None
      | _ => Some []
      end
  | c :: rest =>
      if Ascii.eqb c "_" then
        match prev with
        | Some p => if is_digit p then drop_underscores (Some c) rest else None
        | None => None
        end
      else
        let bad :=
          match prev with
          | Some "_"%char => negb (is_digit c)
          | _ => false
          end in
        if bad then None
        else option_map (cons c) (drop_underscores (Some c) rest)
  end.

(** Longest prefix of digits: its value, its length, and the rest. *)
Fixpoint take_digits (acc : Z) (len : Z) (cs : list ascii)
  : Z * Z * list ascii :=
  match cs with
  | c :: rest =>
      if is_digit c then take_digits (10 * acc + digit_value c) (len + 1) rest
      else (acc, len, cs)
  | [] => (acc, len, [])
  end.

Definition take_sign (cs : list ascii) : bool * list ascii :=
  match cs with
  | "-"%char :: rest => (true, rest)
  | "+"%char :: rest => (false, rest)
  | _ => (false, cs)
  end.

(** The binary64 number nearest to [n / d] for [n, d > 0], with the
    sign [neg].  The quotient is taken with at least 62 significant
    bits, the lowest one made sticky, and [binary_normalize] rounds it
    to nearest even. *)
Definition round_ratio (neg : bool) (n d : Z) : float :=
  let k := 64 - (Z.log2 n - Z.log2 d) in
  let num := if 0 <=? k then n * 2 ^ k else n in
  let den := if 0 <=? k then d else d * 2 ^ (- k) in
  let q := num / den in
  let sticky := if num mod den =? 0 then 0 else 1 in
  let m := 2 * q + sticky in
  SF2Prim (binary_normalize prec emax (if neg then - m else m) (- k - 1) neg).

(** The binary64 number nearest to [m * 10 ^ e10], for [m >= 0]. *)
Definition decimal_to_float (neg : bool) (m e10 : Z) : float :=
  if m =? 0 then (if neg then neg_zero else zero)
  else if 0 <=? e10 then round_ratio neg (m * 10 ^ e10) 1
  else round_ratio neg m (10 ^ (- e10)).

(** The exponent part, read after the mantissa: [e], an optional sign
    and at least one digit, up to the end of the input. *)
Definition parse_exponent (cs : list ascii) : option Z :=
  match cs with
  | [] => Some 0
  | c :: rest =>
      if Ascii.eqb (lower c) "e" then
        let '(eneg, rest1) := take_sign rest in
        let '(e, elen, rest2) := take_digits 0 0 rest1 in
        match rest2 with
        | [] => if 0 <? elen then Some (if eneg then - e else e) else None
        | _ => None
        end
      else None
  end.

Definition parse_decimal (cs : list ascii) : option float :=
  let '(neg, cs1) := take_sign cs in
  let '(ip, ilen, cs2) := take_digits 0 0 cs1 in
  let '(m, flen, cs3) :=
    match cs2 with
    | "."%char :: rest => take_digits ip 0 rest
    | _ => (ip, 0, cs2)
    end in
  if 0 <? ilen + flen then
    match parse_exponent cs3 with
    | Some e => Some (decimal_to_float neg m (e - flen))
    | None => None
    end
  else None.

(** [_Py_parse_inf_or_nan] *)
Definition parse_inf_or_nan (cs : list ascii) : option float :=
  let '(neg, cs1) := take_sign cs in
  let word := string_of_list_ascii (map lower cs1) in
  if String.eqb word "inf" || String.eqb word "infinity" then
    Some (if neg then neg_infinity else infinity)
  else if String.eqb word "nan" then Some nan
  else None.

Definition float_of_str (s : string) : option float :=
  match strip (list_ascii_of_string s) with
  | [] => None
  | cs =>
      match drop_underscores None cs with
      | None => None
      | Some cs' =>
          match parse_decimal cs' with
          | Some x => Some x
          | None => parse_inf_or_nan cs'
          end
      end
  end.

End Py.

(** How a call ends: with a value, or with an exception. *)
Inductive outcome (A : Type) : Type :=
| Return (a : A)
| Raise (e : Py.exn).

Arguments Return {A} a.
Arguments Raise {A} e.

(* ===================================================================== *)
(** * Data model *)
(* ===================================================================== *)

(** ** Answers of the analytics service *)

(** Answer of [POST /api/v1/signal]. *)
Record Signal := mkSignal {
  sig_confidence : Z;
  sig_market_phase : string;
  sig_strategy_type : string;
  sig_action : string
}.

(** One element of [scaling_levels]. *)
Record ScalingLevel := mkLevel {
  lvl_percentage : float;
  lvl_price_offset : string
}.

(** [position_management['entry_method']]. *)
Record EntryMethod := mkEntryMethod {
  em_type : string;
  em_price_offset : option string;
  em_scaling_levels : option (list ScalingLevel)
}.

(** [execution_instructions['position_management']];
    [pm_position_size] is [position_size['percentage']]. *)
Record PositionMgmt := mkPositionMgmt {
  pm_entry_method : EntryMethod;
  pm_position_size : float;
  pm_scaling_levels : option (list ScalingLevel)
}.

(** [execution_instructions['risk_management']]; the fields are
    [stop_loss['price']] and [take_profit['levels']]. *)
Record RiskMgmt := mkRiskMgmt {
  rm_stop_loss_price : option float;
  rm_take_profit_levels : option (list float)
}.

Record SignalSummary := mkSummary {
  ss_action : string;
  ss_market_phase : string;
  ss_strategy_type : string;
  ss_confidence : Z
}.

Record ExecutionInstructions := mkExecution {
  position_management : PositionMgmt;
  risk_management : RiskMgmt
}.

(** Answer of [POST /api/v1/bot-instructions]. *)
Record Instructions := mkInstructions {
  signal_summary : SignalSummary;
  execution_instructions : ExecutionInstructions
}.

(** Answer of [POST /api/v1/validate-strategy]; [None] when the key
    ['valid'] is absent. *)
Record Validation := mkValidation {
  v_valid : option bool
}.

(** ** Records of the ledger *)

(** The [order] dictionaries built by the strategies. *)
Record Order := mkOrder {
  o_symbol : string;
  o_side : string;
  o_amount : float;
  o_price_offset : option float;
  o_type : string;
  o_delay : option Z;
  o_timestamp : Z
}.

(** The [position] dictionaries of [self.positions]. *)
Record Position := mkPosition {
  p_symbol : string;
  p_side : string;
  p_amount : float;
  p_value : float;
  p_entry_price : float;
  p_stop_loss : float;
  p_take_profit_levels : list float;
  p_timestamp : Z;
  p_status : string
}.

(** The [trade] dictionaries of [self.trade_history]. *)
Record Trade := mkTrade {
  t_symbol : string;
  t_action : string;
  t_side : string;
  t_amount : float;
  t_price : float;
  t_reason : option string;
  t_timestamp : Z
}.

(** ** Equality of positions, as [p != position] tests it

    Python compares two dictionaries key by key, and two values by
    identity first and by [==] next.  On floats: the same value, or
    IEEE equality (which identifies [0.0] and [-0.0]). *)

Definition float_eq (x y : float) : bool :=
  PrimFloat.Leibniz.eqb x y || PrimFloat.eqb x y.

Fixpoint floats_eq (xs ys : list float) : bool :=
  match xs, ys with
  | [], [] => true
  | x :: xs', y :: ys' => float_eq x y && floats_eq xs' ys'
  | _, _ => false
  end.

Definition position_eqb (p q : Position) : bool :=
  String.eqb (p_symbol p) (p_symbol q)
  && String.eqb (p_side p) (p_side q)
  && float_eq (p_amount p) (p_amount q)
  && float_eq (p_value p) (p_value q)
  && float_eq (p_entry_price p) (p_entry_price q)
  && float_eq (p_stop_loss p) (p_stop_loss q)
  && floats_eq (p_take_profit_levels p) (p_take_profit_levels q)
  && Z.eqb (p_timestamp p) (p_timestamp q)
  && String.eqb (p_status p) (p_status q).

(** ** The bot object and its environment *)

(** The attributes of [self] that the modelled methods read or write. *)
Record Bot := mkBot {
  account_balance : float;
  positions : list Position;
  trade_history : list Trade;
  confidence_threshold : Z;
  max_positions : Z
}.

(** The remote service behind [base_url]: how the [k]-th HTTP request
    of the run ends, that is, the three lines [requests.post(...)],
    [response.raise_for_status()] and [response.json()].  It returns
    the decoded answer, or raises: [RequestException] for a transport
    failure, a timeout or a status that is not 2xx; any other
    exception for a failure that the methods do not catch, such as the
    [TypeError] of the JSON encoder on a body it cannot serialise
    ([validate_strategy] sends [self.positions], whose timestamps are
    [datetime] objects). *)
Record Service := mkService {
  post_signal : nat -> string -> outcome Signal;
  post_bot_instructions : nat -> string -> outcome Instructions;
  post_validate_strategy : nat -> Signal -> Bot -> outcome Validation
}.

(** Calls to the strategy executor and to the ledger methods. *)
Inductive Call : Type :=
| CallExecuteStrategy (symbol : string) (instructions : Instructions)
| CallOrderPlacement (order : Order) (risk_mgmt : RiskMgmt)
| CallPositionExit (position : Position) (reason : string).

(** A call, with [len(self.positions)] at the time it was made. *)
Record Logged := mkLogged {
  open_count : nat;
  what : Call
}.

Record World := mkWorld {
  self : Bot;
  service : Service;
  clock : Z;
  requests : nat;
  calls : list Logged
}.

Definition with_self (b : Bot) (w : World) : World :=
  mkWorld b (service w) (clock w) (requests w) (calls w).

Definition with_positions (ps : list Position) (b : Bot) : Bot :=
  mkBot (account_balance b) ps (trade_history b)
        (confidence_threshold b) (max_positions b).

Definition with_trade_history (ts : list Trade) (b : Bot) : Bot :=
  mkBot (account_balance b) (positions b) ts
        (confidence_threshold b) (max_positions b).

(** The order dictionaries passed to [simulate_order_placement]. *)
Fixpoint orders_of (l : list Logged) : list Order :=
  match l with
  | [] => []
  | mkLogged _ (CallOrderPlacement o _) :: rest => o :: orders_of rest
  | _ :: rest => orders_of rest
  end.

(** The positions passed to [simulate_position_exit], with the reason. *)
Fixpoint exits_of (l : list Logged) : list (Position * string) :=
  match l with
  | [] => []
  | mkLogged _ (CallPositionExit p r) :: rest => (p, r) :: exits_of rest
  | _ :: rest => exits_of rest
  end.

(* ===================================================================== *)
(** * The monad of methods *)
(* ===================================================================== *)

Definition M (A : Type) : Type := World -> outcome A * World.

Definition ret {A} (a : A) : M A := fun w => (Return a, w).

Definition bind {A B} (c : M A) (k : A -> M B) : M B :=
  fun w =>
    match c w with
    | (Return a, w') => k a w'
    | (Raise e, w') => (Raise e, w')
    end.

Definition raise {A} (e : Py.exn) : M A := fun w => (Raise e, w).

(** [try: body  except Exception as e: handler e] *)
Definition try_except {A} (body : M A) (handler : Py.exn -> M A) : M A :=
  fun w =>
    match body w with
    | (Return a, w') => (Return a, w')
    | (Raise e, w') => handler e w'
    end.

Declare Scope py_scope.
Delimit Scope py_scope with py.

Notation "x <- c1 ;; c2" := (bind c1 (fun x => c2))
  (at level 61, c1 at next level, right associativity) : py_scope.
Notation "c1 ;; c2" := (bind c1 (fun _ => c2))
  (at level 61, right associativity) : py_scope.

Local Open Scope py_scope.

Definition get_self : M Bot := fun w => (Return (self w), w).

Definition modify_self (f : Bot -> Bot) : M unit :=
  fun w => (Return tt, with_self (f (self w)) w).

(** [datetime.now()] *)
Definition datetime_now : M Z := fun w => (Return (clock w), w).

(** [time.sleep(n)] *)
Definition time_sleep (n : Z) : M unit :=
  fun w => (Return tt,
            mkWorld (self w) (service w) (clock w + n) (requests w) (calls w)).

Definition log_call (c : Call) : M unit :=
  fun w => (Return tt,
            mkWorld (self w) (service w) (clock w) (requests w)
                    (calls w ++ [mkLogged (length (positions (self w))) c])).

(** [d[key]] for a key that may be absent. *)
Definition item {A} (key : string) (v : option A) : M A :=
  match v with
  | Some a => ret a
  | None => raise (Py.KeyError key)
  end.

(** [try: body  except requests.exceptions.RequestException: handler] *)
Definition except_request_exception {A} (body : M A) (handler : M A) : M A :=
  fun w =>
    match body w with
    | (Return a, w') => (Return a, w')
    | (Raise e, w') =>
        if Py.is_request_exception e then handler w' else (Raise e, w')
    end.

(** One call to [requests.post] and the decoding of its answer: it
    ends as the service decides, and one more call has been made. *)
Definition requests_post {A} (answer : Service -> nat -> outcome A) : M A :=
  fun w => (answer (service w) (requests w),
            mkWorld (self w) (service w) (clock w) (S (requests w)) (calls w)).

Definition run {A} (c : M A) (w : World) : World := snd (c w).
Definition result {A} (c : M A) (w : World) : outcome A := fst (c w).

(* ===================================================================== *)
(** * class EnhancedTradingBot *)
(* ===================================================================== *)

(** [__init__]: the attributes a new bot starts with. *)
Definition init (account_balance : float) : Bot :=
  mkBot account_balance [] [] 50 5.

(** The expression [float(s.replace('%', '')) / 100] of
    [execute_accumulation_strategy] and
    [execute_consolidation_strategy]. *)
Definition parse_percentage (s : string) : M float :=
  match Py.float_of_str (Py.remove_char "%" s) with
  | Some x => ret (x / 100)%float
  | None => raise (Py.ValueError "could not convert string to float")
  end.

(** ** The three requests *)

Definition get_enhanced_signal (symbol : string) : M (option Signal) :=
  except_request_exception
    (answer <- requests_post (fun svc k => post_signal svc k symbol) ;;
     ret (Some answer))
    (ret None).

Definition get_bot_instructions (symbol : string) : M (option Instructions) :=
  except_request_exception
    (answer <- requests_post (fun svc k => post_bot_instructions svc k symbol) ;;
     ret (Some answer))
    (ret None).

Definition validate_strategy (signal : Signal) : M Validation :=
  except_request_exception
    (bot <- get_self ;;
     requests_post (fun svc k => post_validate_strategy svc k signal bot))
    (ret (mkValidation (Some false))).

(** ** The ledger *)

Definition simulate_order_placement (order : Order) (risk_mgmt : RiskMgmt)
  : M bool :=
  log_call (CallOrderPlacement order risk_mgmt) ;;
  try_except
    (bot <- get_self ;;
     let position_value := (account_balance bot * o_amount order)%float in
     stop_loss <- item "stop_loss" (rm_stop_loss_price risk_mgmt) ;;
     take_profit <- item "take_profit" (rm_take_profit_levels risk_mgmt) ;;
     let position :=
       mkPosition (o_symbol order)
                  (if String.eqb (o_side order) "buy" then "long" else "short")
                  (o_amount order)
                  position_value
                  50000%float
                  stop_loss
                  take_profit
                  (o_timestamp order)
                  "open" in
     modify_self (fun b => with_positions (positions b ++ [position]) b) ;;
     let trade :=
       mkTrade (o_symbol order) "open" (p_side position) (o_amount order)
               (p_entry_price position) None (o_timestamp order) in
     modify_self (fun b => with_trade_history (trade_history b ++ [trade]) b) ;;
     ret true)
    (fun _ => ret false).

Definition simulate_position_exit (position : Position) (reason : string)
  : M bool :=
  log_call (CallPositionExit position reason) ;;
  try_except
    (modify_self (fun b =>
       with_positions
         (filter (fun p => negb (position_eqb p position)) (positions b)) b) ;;
     now <- datetime_now ;;
     let trade :=
       mkTrade (p_symbol position) "close" (p_side position)
               (p_amount position)
               (p_entry_price position * 1.02)%float
               (Some reason) now in
     modify_self (fun b => with_trade_history (trade_history b ++ [trade]) b) ;;
     ret true)
    (fun _ => ret false).

Definition get_position (symbol : string) : M (option Position) :=
  bot <- get_self ;;
  ret (find (fun position => String.eqb (p_symbol position) symbol)
            (positions bot)).

(** ** The strategies *)

(** The body of [for i, level in enumerate(scaling_levels)], from
    index [i] on; [n] is [len(scaling_levels)]. *)
Fixpoint accumulation_orders (symbol : string) (position_size : float)
    (risk_mgmt : RiskMgmt) (n : Z) (i : Z) (levels : list ScalingLevel)
  : M unit :=
  match levels with
  | [] => ret tt
  | level :: rest =>
      let order_size := (position_size * (lvl_percentage level / 100))%float in
      price_offset <- parse_percentage (lvl_price_offset level) ;;
      now <- datetime_now ;;
      let order :=
        mkOrder symbol "buy" order_size (Some price_offset) "limit"
                (Some (i * 900)) now in
      simulate_order_placement order risk_mgmt ;;
      (if i <? n - 1 then time_sleep 5 else ret tt) ;;
      accumulation_orders symbol position_size risk_mgmt n (i + 1) rest
  end.

Definition execute_accumulation_strategy (symbol : string)
    (position_mgmt : PositionMgmt) (risk_mgmt : RiskMgmt) : M bool :=
  let entry_method := pm_entry_method position_mgmt in
  let position_size := pm_position_size position_mgmt in
  (if String.eqb (em_type entry_method) "scaled_entry" then
     scaling_levels <- item "scaling_levels" (pm_scaling_levels position_mgmt) ;;
     accumulation_orders symbol position_size risk_mgmt
       (Z.of_nat (length scaling_levels)) 0 scaling_levels
   else ret tt) ;;
  ret true.

Definition execute_distribution_strategy (symbol : string)
    (position_mgmt : PositionMgmt) (risk_mgmt : RiskMgmt) : M bool :=
  existing_position <- get_position symbol ;;
  match existing_position with
  | Some position =>
      simulate_position_exit position "distribution_exit" ;; ret tt
  | None => ret tt
  end ;;
  (if (0 <? pm_position_size position_mgmt)%float then
     now <- datetime_now ;;
     let order :=
       mkOrder symbol "sell" (pm_position_size position_mgmt) None "market"
               None now in
     simulate_order_placement order risk_mgmt ;; ret tt
   else ret tt) ;;
  ret true.

Definition execute_markup_strategy (symbol : string)
    (position_mgmt : PositionMgmt) (risk_mgmt : RiskMgmt) : M bool :=
  let entry_method := pm_entry_method position_mgmt in
  (if String.eqb (em_type entry_method) "immediate_entry" then
     now <- datetime_now ;;
     let order :=
       mkOrder symbol "buy" (pm_position_size position_mgmt) None "market"
               None now in
     simulate_order_placement order risk_mgmt ;; ret tt
   else ret tt) ;;
  ret true.

Definition execute_markdown_strategy (symbol : string)
    (position_mgmt : PositionMgmt) (risk_mgmt : RiskMgmt) : M bool :=
  existing_position <- get_position symbol ;;
  match existing_position with
  | Some position =>
      if String.eqb (p_side position) "long" then
        simulate_position_exit position "markdown_exit" ;; ret tt
      else ret tt
  | None => ret tt
  end ;;
  (if (0 <? pm_position_size position_mgmt)%float then
     now <- datetime_now ;;
     let order :=
       mkOrder symbol "sell" (pm_position_size position_mgmt) None "limit"
               None now in
     simulate_order_placement order risk_mgmt ;; ret tt
   else ret tt) ;;
  ret true.

Definition execute_consolidation_strategy (symbol : string)
    (position_mgmt : PositionMgmt) (risk_mgmt : RiskMgmt) : M bool :=
  let entry_method := pm_entry_method position_mgmt in
  (if String.eqb (em_type entry_method) "limit_entry" then
     price_offset <-
       parse_percentage
         (match em_price_offset entry_method with
          | Some s => s
          | None => "-0.1%"
          end) ;;
     now <- datetime_now ;;
     let order :=
       mkOrder symbol "buy" (pm_position_size position_mgmt)
               (Some price_offset) "limit" None now in
     simulate_order_placement order risk_mgmt ;; ret tt
   else ret tt) ;;
  ret true.

Definition execute_neutral_strategy (symbol : string)
    (position_mgmt : PositionMgmt) (risk_mgmt : RiskMgmt) : M bool :=
  (if (0 <? pm_position_size position_mgmt)%float then
     now <- datetime_now ;;
     let order :=
       mkOrder symbol "buy" (pm_position_size position_mgmt * 0.5)%float
               None "limit" None now in
     simulate_order_placement order risk_mgmt ;; ret tt
   else ret tt) ;;
  ret true.

(** ** Dispatch on the market phase *)

Definition execute_strategy (symbol : string) (instructions : Instructions)
  : M bool :=
  log_call (CallExecuteStrategy symbol instructions) ;;
  try_except
    (let signal_summary := signal_summary instructions in
     let execution_instructions := execution_instructions instructions in
     let position_mgmt := position_management execution_instructions in
     let risk_mgmt := risk_management execution_instructions in
     let market_phase := ss_market_phase signal_summary in
     if String.eqb market_phase "ACCUMULATION" then
       execute_accumulation_strategy symbol position_mgmt risk_mgmt
     else if String.eqb market_phase "DISTRIBUTION" then
       execute_distribution_strategy symbol position_mgmt risk_mgmt
     else if String.eqb market_phase "MARKUP" then
       execute_markup_strategy symbol position_mgmt risk_mgmt
     else if String.eqb market_phase "MARKDOWN" then
       execute_markdown_strategy symbol position_mgmt risk_mgmt
     else if String.eqb market_phase "CONSOLIDATION" then
       execute_consolidation_strategy symbol position_mgmt risk_mgmt
     else
       execute_neutral_strategy symbol position_mgmt risk_mgmt)
    (fun _ => ret false).

(** ** Per-symbol analysis and the trading cycle *)

Definition analyze_symbol (symbol : string) : M bool :=
  signal <- get_enhanced_signal symbol ;;
  match signal with
  | None => ret false
  | Some signal =>
      bot <- get_self ;;
      if sig_confidence signal <? confidence_threshold bot then ret false
      else
        instructions <- get_bot_instructions symbol ;;
        match instructions with
        | None => ret false
        | Some instructions =>
            validation <- validate_strategy signal ;;
            if negb (match v_valid validation with
                     | Some b => b
                     | None => false
                     end)
            then ret false
            else
              bot <- get_self ;;
              if max_positions bot <=? Z.of_nat (length (positions bot))
              then ret false
              else execute_strategy symbol instructions
        end
  end.

(** [for symbol in symbols: try: ... except Exception: continue] *)
Fixpoint run_trading_cycle (symbols : list string) : M unit :=
  match symbols with
  | [] => ret tt
  | symbol :: rest =>
      try_except
        (analyze_symbol symbol ;; time_sleep 2)
        (fun _ => ret tt) ;;
      run_trading_cycle rest
  end.

(* ===================================================================== *)
(** * Notions used by the properties *)
(* ===================================================================== *)

(** At most one open position per symbol. *)
Definition one_position_per_symbol (b : Bot) : Prop :=
  NoDup (map p_symbol (positions b)).

(** An order placement was made while [len(self.positions)] was at
    least [limit]. *)
Definition placed_when_full (limit : Z) (l : list Logged) : bool :=
  existsb (fun c =>
             match what c with
             | CallOrderPlacement _ _ => limit <=? Z.of_nat (open_count c)
             | _ => false
             end) l.

(** The parsing rule in the words of the specification: strip one
    trailing ["%"], then read the remainder as a number and divide it
    by 100. *)
Fixpoint strip_trailing_percent (s : string) : string :=
  match s with
  | EmptyString => EmptyString
  | String a EmptyString => if Ascii.eqb a "%" then EmptyString else s
  | String a rest => String a (strip_trailing_percent rest)
  end.

Definition spec_parse_percentage (s : string) : option float :=
  option_map (fun x => (x / 100)%float)
             (Py.float_of_str (strip_trailing_percent s)).

(** The position and the trades that the ledger methods build: the
    position opened by an order whose [risk_mgmt] carries both keys,
    its open trade, and the close trade of a position. *)
Definition opened_position (b : Bot) (order : Order)
    (stop_loss : float) (take_profit : list float) : Position :=
  mkPosition (o_symbol order)
             (if String.eqb (o_side order) "buy" then "long" else "short")
             (o_amount order)
             (account_balance b * o_amount order)%float
             50000%float stop_loss take_profit (o_timestamp order) "open".

Definition open_trade (order : Order) : Trade :=
  mkTrade (o_symbol order) "open"
          (if String.eqb (o_side order) "buy" then "long" else "short")
          (o_amount order) 50000%float None (o_timestamp order).

Definition close_trade (position : Position) (reason : string) (now : Z)
  : Trade :=
  mkTrade (p_symbol position) "close" (p_side position) (p_amount position)
          (p_entry_price position * 1.02)%float (Some reason) now.

(** ** Sample answers of the service, for the concrete runs *)

Definition sample_risk : RiskMgmt :=
  mkRiskMgmt (Some 48000%float) (Some [52000%float; 54000%float]).

Definition sample_levels : list ScalingLevel :=
  [mkLevel 50%float "-0.5%"; mkLevel 50%float "-1.0%"].

Definition sample_instructions (phase : string) (pm : PositionMgmt)
  : Instructions :=
  mkInstructions (mkSummary "BUY" phase "momentum" 80)
                 (mkExecution pm sample_risk).

(** Scaling levels carried by [entry_method], as in the schema of the
    specification. *)
Definition schema_accumulation : Instructions :=
  sample_instructions "ACCUMULATION"
    (mkPositionMgmt (mkEntryMethod "scaled_entry" None (Some sample_levels))
                    0.04%float None).

(** Scaling levels next to [entry_method], where the code reads them. *)
Definition sibling_accumulation (levels : list ScalingLevel) : Instructions :=
  sample_instructions "ACCUMULATION"
    (mkPositionMgmt (mkEntryMethod "scaled_entry" None None)
                    0.04%float (Some levels)).

(** A service that answers every request alike and validates every
    signal.  A validation request of a bot that holds positions does
    not reach it: the JSON encoder raises on their timestamps. *)
Definition steady_service (instructions : Instructions) : Service :=
  mkService
    (fun _ _ =>
       Return (mkSignal 80 (ss_market_phase (signal_summary instructions))
                        "momentum" "BUY"))
    (fun _ _ => Return instructions)
    (fun _ _ bot =>
       match positions bot with
       | [] => Return (mkValidation (Some true))
       | _ :: _ =>
           Raise (Py.TypeError
                    "Object of type datetime is not JSON serializable")
       end).

(** A new bot with a balance of 10000, before its first request. *)
Definition fresh_world (svc : Service) : World :=
  mkWorld (init 10000%float) svc 0 0 [].

Definition sample_position : Position :=
  mkPosition "BTCUSDT" "long" 0.04%float 400%float 50000%float 48000%float
             [52000%float] 0 "open".

(** An open position on another symbol. *)
Definition other_position : Position :=
  mkPosition "ETHUSDT" "short" 0.05%float 500%float 50000%float 3100%float
             [2900%float] 7 "open".

Definition seven_levels : list ScalingLevel :=
  repeat (mkLevel 10%float "-0.5%") 7.

(** A bot whose ledger holds that position only. *)
Definition one_position_world : World :=
  mkWorld (mkBot 10000%float [other_position] [] 50 5)
          (steady_service schema_accumulation) 9 0 [].

(* ===================================================================== *)
(** * The performance summary *)
(* ===================================================================== *)

(** The dictionary returned by [get_performance_summary] when trades
    exist.  [last_trade] is the last row of the data frame built from
    [self.trade_history]; a reason of [None] stands for a row without
    one. *)
Record Performance := mkPerformance {
  total_trades : nat;
  open_trades : nat;
  closed_trades : nat;
  symbols_traded : nat;
  perf_account_balance : float;
  open_positions : nat;
  last_trade : option Trade
}.

Inductive Summary : Type :=
| NoTrades (message : string)
| Summarized (performance : Performance).

(** [len(trades_df[trades_df['action'] == action])] *)
Definition count_action (action : string) (trades : list Trade) : nat :=
  length (filter (fun t => String.eqb (t_action t) action) trades).

(** [Series.nunique()]: the number of distinct values. *)
Fixpoint nunique (values : list string) : nat :=
  match values with
  | [] => 0%nat
  | v :: rest =>
      if existsb (String.eqb v) rest then nunique rest else S (nunique rest)
  end.

Definition get_performance_summary : M Summary :=
  bot <- get_self ;;
  match trade_history bot with
  | [] => ret (NoTrades "No trades executed yet")
  | _ :: _ =>
      let trades := trade_history bot in
      ret (Summarized
             (mkPerformance
                (length trades)
                (count_action "open" trades)
                (count_action "close" trades)
                (nunique (map t_symbol trades))
                (account_balance bot)
                (length (positions bot))
                (hd_error (rev trades))))
  end.

(* ===================================================================== *)
(** * Notions used by the further properties *)
(* ===================================================================== *)

(** The bot after a successful order placement, and after a position
    exit: the only two ways in which the methods change [self]. *)
Definition after_open (b : Bot) (order : Order) (stop_loss : float)
    (take_profit : list float) : Bot :=
  mkBot (account_balance b)
        (positions b ++ [opened_position b order stop_loss take_profit])
        (trade_history b ++ [open_trade order])
        (confidence_threshold b) (max_positions b).

Definition after_close (b : Bot) (position : Position) (reason : string)
    (now : Z) : Bot :=
  mkBot (account_balance b)
        (filter (fun p => negb (position_eqb p position)) (positions b))
        (trade_history b ++ [close_trade position reason now])
        (confidence_threshold b) (max_positions b).

(** A property of the bot kept by both. *)
Definition ledger_invariant (P : Bot -> Prop) : Prop :=
  (forall b order stop_loss take_profit,
      P b -> P (after_open b order stop_loss take_profit))
  /\ (forall b position reason now,
        P b -> P (after_close b position reason now)).

(** A computation that keeps a property of the world, however it
    ends. *)
Definition keeps (Q : World -> Prop) {A} (c : M A) : Prop :=
  forall w, Q w -> Q (run c w).

(** A computation that keeps a property of the bot, however it ends. *)
Definition preserves (P : Bot -> Prop) {A} (c : M A) : Prop :=
  forall w, P (self w) -> P (self (run c w)).

(** A position as [simulate_order_placement] builds it for a bot with
    the balance [balance]. *)
Definition well_formed_position (balance : float) (p : Position) : Prop :=
  p_status p = "open"
  /\ p_entry_price p = 50000%float
  /\ (p_side p = "long" \/ p_side p = "short")
  /\ p_value p = (balance * p_amount p)%float.

(** The open trade that records the opening of a position. *)
Definition records_opening (p : Position) (t : Trade) : Prop :=
  t_action t = "open"
  /\ t_symbol t = p_symbol p
  /\ t_side t = p_side p
  /\ t_amount t = p_amount p
  /\ t_price t = p_entry_price p
  /\ t_timestamp t = p_timestamp p.

(** The world after [n] more calls to [requests.post]. *)
Definition after_requests (n : nat) (w : World) : World :=
  mkWorld (self w) (service w) (clock w) (n + requests w) (calls w).

(* ===================================================================== *)
(** * Concrete runs *)
(* ===================================================================== *)

(** [float()] on a few inputs, against the literals of the kernel. *)
Example float_of_str_samples :
  Py.float_of_str "-0.1" = Some (-0.1)%float
  /\ Py.float_of_str " 1_0.5e+1 " = Some 105%float
  /\ Py.float_of_str "9007199254740993" = Some 9007199254740992%float
  /\ Py.float_of_str "1e400" = Some infinity
  /\ Py.float_of_str "-Infinity" = Some neg_infinity
  /\ Py.float_of_str "1__0" = None
  /\ Py.float_of_str "1e" = None
  /\ Py.float_of_str "." = None
  /\ Py.float_of_str EmptyString = None
  /\ Py.float_of_str "1%0" = None.
Proof. repeat split; vm_compute; reflexivity. Qed.

(** The CONSOLIDATION scenario of the specification: a limit entry
    with price offset ["-0.1%"] and a percentage of 0.05 places one
    limit buy order of amount 0.05 at offset -0.001. *)
Example consolidation_scenario :
  let instructions :=
    sample_instructions "CONSOLIDATION"
      (mkPositionMgmt (mkEntryMethod "limit_entry" (Some "-0.1%") None)
                      0.05%float None) in
  orders_of (calls (run (execute_strategy "BTCUSDT" instructions)
                        (fresh_world (steady_service instructions))))
  = [mkOrder "BTCUSDT" "buy" 0.05%float (Some (-0.001)%float) "limit" None 0].
Proof. vm_compute. reflexivity. Qed.

(* ===================================================================== *)
(** * Basic facts *)
(* ===================================================================== *)

Lemma float_eq_refl (x : float) : float_eq x x = true.
Proof.
  unfold float_eq.
  assert (H : PrimFloat.Leibniz.eqb x x = true)
    by (apply FloatAxioms.Leibniz.eqb_spec; reflexivity).
  now rewrite H.
Qed.

Lemma floats_eq_refl (xs : list float) : floats_eq xs xs = true.
Proof.
  induction xs as [|x xs IH]; simpl; [reflexivity|].
  now rewrite float_eq_refl, IH.
Qed.

Lemma position_eqb_refl (p : Position) : position_eqb p p = true.
Proof.
  unfold position_eqb.
  now rewrite !String.eqb_refl, !float_eq_refl, floats_eq_refl, Z.eqb_refl.
Qed.

Lemma position_eqb_symbol (p q : Position) :
  position_eqb p q = true -> p_symbol p = p_symbol q.
Proof.
  unfold position_eqb. rewrite !andb_true_iff.
  intros H. decompose [and] H. now apply String.eqb_eq.
Qed.

Lemma filter_keeps_all {A} (f : A -> bool) (l : list A) :
  (forall x, In x l -> f x = true) -> filter f l = l.
Proof.
  induction l as [|a l IH]; simpl; intros H; [reflexivity|].
  rewrite (H a (or_introl eq_refl)), IH; auto.
Qed.

Lemma not_in_filter_other (position : Position) (l : list Position) :
  ~ In position (filter (fun p => negb (position_eqb p position)) l).
Proof.
  intros H. apply filter_In in H. destruct H as [_ H].
  now rewrite position_eqb_refl in H.
Qed.

Lemma remove_char_filter (c : ascii) (s : string) :
  list_ascii_of_string (Py.remove_char c s) =
  filter (fun a => negb (Ascii.eqb a c)) (list_ascii_of_string s).
Proof.
  induction s as [|a s IH]; simpl; [reflexivity|].
  destruct (Ascii.eqb a c); simpl; now rewrite IH.
Qed.

(** ** The ledger methods, step by step *)

Lemma simulate_order_placement_ok order stop_loss take_profit w :
  simulate_order_placement order
      (mkRiskMgmt (Some stop_loss) (Some take_profit)) w =
  (Return true,
   mkWorld
     (mkBot (account_balance (self w))
            (positions (self w)
               ++ [opened_position (self w) order stop_loss take_profit])
            (trade_history (self w) ++ [open_trade order])
            (confidence_threshold (self w)) (max_positions (self w)))
     (service w) (clock w) (requests w)
     (calls w ++ [mkLogged (length (positions (self w)))
                    (CallOrderPlacement order
                       (mkRiskMgmt (Some stop_loss) (Some take_profit)))])).
Proof. reflexivity. Qed.

(** Whatever [risk_mgmt] holds, a placement returns, logs its call and
    leaves the clock, the service and the request count alone. *)
Lemma simulate_order_placement_frame order risk_mgmt w :
  exists b bot',
    simulate_order_placement order risk_mgmt w =
    (Return b,
     mkWorld bot' (service w) (clock w) (requests w)
       (calls w ++ [mkLogged (length (positions (self w)))
                      (CallOrderPlacement order risk_mgmt)])).
Proof.
  destruct risk_mgmt as [[sl|] [tp|]]; eexists; eexists;
    unfold simulate_order_placement, bind, try_except, log_call; simpl;
    reflexivity.
Qed.

Lemma simulate_position_exit_ok position reason w :
  simulate_position_exit position reason w =
  (Return true,
   mkWorld
     (mkBot (account_balance (self w))
            (filter (fun p => negb (position_eqb p position))
                    (positions (self w)))
            (trade_history (self w) ++ [close_trade position reason (clock w)])
            (confidence_threshold (self w)) (max_positions (self w)))
     (service w) (clock w) (requests w)
     (calls w ++ [mkLogged (length (positions (self w)))
                    (CallPositionExit position reason)])).
Proof. reflexivity. Qed.

Lemma orders_of_app l1 l2 : orders_of (l1 ++ l2) = orders_of l1 ++ orders_of l2.
Proof.
  induction l1 as [|[n c] l1 IH]; simpl; [reflexivity|].
  destruct c; simpl; now rewrite IH.
Qed.

Lemma exits_of_app l1 l2 : exits_of (l1 ++ l2) = exits_of l1 ++ exits_of l2.
Proof.
  induction l1 as [|[n c] l1 IH]; simpl; [reflexivity|].
  destruct c; simpl; now rewrite IH.
Qed.

(* ===================================================================== *)
(** * Percentage strings *)
(* ===================================================================== *)

(** C8, as stated, fails: the code removes every ["%"], also one that
    is not at the end.  ["1%0%"] is read as 10 percent, whereas the
    remainder ["1%0"] of the stated rule is not a number. *)
Lemma parse_percentage_inner_percent :
  parse_percentage "1%0%" = ret 0.1%float
  /\ spec_parse_percentage "1%0%" = None.
Proof. split; vm_compute; reflexivity. Qed.

(** C8, amended: parsing removes every ["%"] character of the input,
    reads what remains as a number and divides it by 100, without any
    effect on the state; it raises [ValueError] exactly when the input
    without its ["%"] characters is not numeric. *)
Theorem parse_percentage_removes_every_percent (s : string) (w : World) :
  let rest :=
    string_of_list_ascii
      (filter (fun a => negb (Ascii.eqb a "%")) (list_ascii_of_string s)) in
  run (parse_percentage s) w = w
  /\ result (parse_percentage s) w =
       match Py.float_of_str rest with
       | Some x => Return (x / 100)%float
       | None => Raise (Py.ValueError "could not convert string to float")
       end
  /\ ((exists e, result (parse_percentage s) w = Raise e)
      <-> Py.float_of_str rest = None).
Proof.
  intros rest.
  assert (E : rest = Py.remove_char "%" s).
  { unfold rest. rewrite <- remove_char_filter.
    apply string_of_list_ascii_of_string. }
  rewrite E. unfold parse_percentage, run, result.
  destruct (Py.float_of_str (Py.remove_char "%" s)) as [x|]; simpl.
  - repeat split; try reflexivity.
    + intros [e He]. discriminate.
    + discriminate.
  - repeat split; try reflexivity. eauto.
Qed.

(** Where the only ["%"] of the input is its last character, or there
    is none, the code follows the stated rule. *)
Lemma remove_char_length (c : ascii) (s : string) :
  (String.length (Py.remove_char c s) <= String.length s)%nat.
Proof.
  induction s as [|b s IH]; simpl; [lia|].
  destruct (Ascii.eqb b c); simpl; lia.
Qed.

Lemma remove_char_fixed_cons (c a : ascii) (s : string) :
  Py.remove_char c (String a s) = String a s ->
  Ascii.eqb a c = false /\ Py.remove_char c s = s.
Proof.
  simpl. destruct (Ascii.eqb a c) eqn:E; intros H.
  - pose proof (remove_char_length c s) as L. rewrite H in L. simpl in L. lia.
  - injection H as H. auto.
Qed.

Lemma strip_trailing_percent_cons (a b : ascii) (s : string) :
  strip_trailing_percent (String a (String b s)) =
  String a (strip_trailing_percent (String b s)).
Proof. reflexivity. Qed.

Lemma strip_trailing_percent_none (s : string) :
  Py.remove_char "%" s = s -> strip_trailing_percent s = s.
Proof.
  induction s as [|a s IH]; [reflexivity|].
  intros H. apply remove_char_fixed_cons in H. destruct H as [Ea H].
  destruct s as [|b s].
  - simpl. now rewrite Ea.
  - rewrite strip_trailing_percent_cons. now rewrite (IH H).
Qed.

Lemma strip_trailing_percent_last (s : string) :
  Py.remove_char "%" s = s -> strip_trailing_percent (s ++ "%")%string = s.
Proof.
  induction s as [|a s IH]; [reflexivity|].
  intros H. apply remove_char_fixed_cons in H. destruct H as [Ea H].
  specialize (IH H).
  destruct s as [|b s]; [reflexivity|].
  change (strip_trailing_percent (String a (String b (s ++ "%")%string)) =
          String a (String b s)).
  rewrite strip_trailing_percent_cons. f_equal. exact IH.
Qed.

Lemma remove_char_last (s : string) :
  Py.remove_char "%" (s ++ "%")%string = Py.remove_char "%" s.
Proof.
  induction s as [|a s IH]; [reflexivity|].
  simpl. now rewrite IH.
Qed.

(** X25: for a string without ["%"], and for such a string followed
    by one ["%"], parsing does what the stated rule says: it reads the
    string without its trailing ["%"] as a number, divides it by 100,
    and raises [ValueError] when that is not a number. *)
Lemma parse_percentage_follows_rule (s : string) (w : World) :
  Py.remove_char "%" s = s ->
  forall t, t = s \/ t = (s ++ "%")%string ->
  result (parse_percentage t) w =
    match spec_parse_percentage t with
    | Some x => Return x
    | None => Raise (Py.ValueError "could not convert string to float")
    end.
Proof.
  intros H t [-> | ->]; unfold parse_percentage, spec_parse_percentage, result.
  - rewrite strip_trailing_percent_none, H by assumption.
    destruct (Py.float_of_str s); reflexivity.
  - rewrite strip_trailing_percent_last, remove_char_last, H by assumption.
    destruct (Py.float_of_str s); reflexivity.
Qed.

(* ===================================================================== *)
(** * The ledger *)
(* ===================================================================== *)

Lemma NoDup_map_filter {A B} (f : A -> B) (g : A -> bool) (l : list A) :
  NoDup (map f l) -> NoDup (map f (filter g l)).
Proof.
  induction l as [|a l IH]; simpl; intros H; [constructor|].
  inversion H as [|? ? Hnotin Hrest]; subst.
  destruct (g a); simpl; auto.
  constructor; auto.
  intros Hin. apply Hnotin.
  apply in_map_iff in Hin. destruct Hin as [x [Hx Hin]].
  apply filter_In in Hin. apply in_map_iff. exists x. tauto.
Qed.

Lemma NoDup_snoc {A} (l : list A) (a : A) :
  NoDup (l ++ [a]) <-> NoDup l /\ ~ In a l.
Proof.
  split.
  - intros H. apply NoDup_remove in H. rewrite app_nil_r in H. exact H.
  - intros [H1 H2]. apply NoDup_app.
    + exact H1.
    + repeat constructor. intros [].
    + intros x Hx [<- | []]. contradiction.
Qed.

Lemma find_symbol_none (symbol : string) (l : list Position) :
  find (fun position => String.eqb (p_symbol position) symbol) l = None
  <-> ~ In symbol (map p_symbol l).
Proof.
  induction l as [|p l IH]; simpl.
  - tauto.
  - destruct (String.eqb (p_symbol p) symbol) eqn:E.
    + apply String.eqb_eq in E. split; [discriminate | tauto].
    + apply String.eqb_neq in E. rewrite IH. tauto.
Qed.

(** C4, as stated, fails: closing a position the ledger does not hold
    raises nothing.  On a new bot the exit returns [True] and a close
    trade is appended to the history. *)
Lemma exit_of_unknown_position_succeeds :
  let w := fresh_world (steady_service schema_accumulation) in
  positions (self w) = []
  /\ result (simulate_position_exit sample_position "manual") w = Return true
  /\ trade_history
       (self (run (simulate_position_exit sample_position "manual") w))
     = [mkTrade "BTCUSDT" "close" "long" 0.04%float 51000%float
                (Some "manual") 0].
Proof. repeat split. Qed.

(** C4, amended: closing a position that no open position compares
    equal to does not fail: the exit returns [True], the open set is
    unchanged, and one close trade with the given reason is appended
    to the trade history. *)
Theorem exit_of_absent_position (position : Position) (reason : string)
    (w : World) :
  (forall p, In p (positions (self w)) -> position_eqb p position = false) ->
  let w' := run (simulate_position_exit position reason) w in
  result (simulate_position_exit position reason) w = Return true
  /\ positions (self w') = positions (self w)
  /\ trade_history (self w') =
       trade_history (self w) ++
       [mkTrade (p_symbol position) "close" (p_side position)
                (p_amount position) (p_entry_price position * 1.02)%float
                (Some reason) (clock w)].
Proof.
  intros H w'. subst w'. unfold run, result.
  rewrite simulate_position_exit_ok. simpl.
  repeat split.
  apply filter_keeps_all. intros p Hp. now rewrite (H p Hp).
Qed.

Lemma exit_of_absent_position_witness :
  (forall p, In p (positions (self one_position_world)) ->
             position_eqb p sample_position = false)
  /\ positions
       (self (run (simulate_position_exit sample_position "manual")
                  one_position_world)) = [other_position]
  /\ length (trade_history
       (self (run (simulate_position_exit sample_position "manual")
                  one_position_world))) = 1%nat.
Proof.
  assert (H : forall p, In p (positions (self one_position_world)) ->
                        position_eqb p sample_position = false).
  { intros p [<- | []]. reflexivity. }
  split; [exact H|].
  destruct (exit_of_absent_position sample_position "manual"
              one_position_world H) as [_ [Hp Ht]].
  split; [exact Hp|]. rewrite Ht. reflexivity.
Defined.

(** C5: opening a position and then closing it removes it from the
    open set and appends exactly two trades to the history, an open
    trade and then a close trade, both with the symbol and the side of
    the position, the close trade priced at [entry_price * 1.02]. *)
Theorem open_then_close (order : Order) (stop_loss : float)
    (take_profit : list float) (reason : string) (w : World) :
  let w1 :=
    run (simulate_order_placement order
           (mkRiskMgmt (Some stop_loss) (Some take_profit))) w in
  exists position,
    positions (self w1) = positions (self w) ++ [position]
    /\ p_symbol position = o_symbol order
    /\ let w2 := run (simulate_position_exit position reason) w1 in
       ~ In position (positions (self w2))
       /\ positions (self w2) =
            filter (fun p => negb (position_eqb p position))
                   (positions (self w))
       /\ exists t_open t_close,
            trade_history (self w2) =
              trade_history (self w) ++ [t_open; t_close]
            /\ t_action t_open = "open" /\ t_action t_close = "close"
            /\ t_symbol t_open = p_symbol position
            /\ t_symbol t_close = p_symbol position
            /\ t_side t_open = p_side position
            /\ t_side t_close = p_side position
            /\ t_price t_close = (p_entry_price position * 1.02)%float.
Proof.
  intros w1. subst w1. unfold run.
  rewrite simulate_order_placement_ok. cbn [snd].
  exists (opened_position (self w) order stop_loss take_profit).
  split; [reflexivity|]. split; [reflexivity|]. cbv zeta.
  rewrite simulate_position_exit_ok. cbn [snd self positions trade_history].
  set (position := opened_position (self w) order stop_loss take_profit).
  assert (F : filter (fun p => negb (position_eqb p position))
                     (positions (self w) ++ [position]) =
              filter (fun p => negb (position_eqb p position))
                     (positions (self w))).
  { rewrite filter_app. simpl. rewrite position_eqb_refl. simpl.
    apply app_nil_r. }
  rewrite F. split; [apply not_in_filter_other|]. split; [reflexivity|].
  exists (open_trade order), (close_trade position reason (clock w)).
  rewrite <- app_assoc. simpl. repeat split.
Qed.

(** C1, as stated, fails: one ACCUMULATION signal with two scaling
    levels, analysed by a new bot, leaves two open positions for the
    same symbol. *)
Lemma accumulation_opens_two_positions :
  let w0 := fresh_world (steady_service (sibling_accumulation sample_levels)) in
  one_position_per_symbol (self w0)
  /\ map p_symbol (positions (self (run (analyze_symbol "BTCUSDT") w0)))
     = ["BTCUSDT"; "BTCUSDT"]
  /\ ~ one_position_per_symbol (self (run (analyze_symbol "BTCUSDT") w0)).
Proof.
  intros w0.
  assert (E : map p_symbol (positions (self (run (analyze_symbol "BTCUSDT") w0)))
              = ["BTCUSDT"; "BTCUSDT"]) by (vm_compute; reflexivity).
  split; [constructor|]. split; [exact E|].
  unfold one_position_per_symbol. rewrite E. intros H.
  inversion H as [|? ? Hnotin _]. apply Hnotin. left. reflexivity.
Qed.

(** C1, amended: the ledger does not enforce one open position per
    symbol by itself.  From a ledger with at most one open position
    per symbol, a position exit leaves at most one per symbol, and an
    order placement appends one open position for the symbol of the
    order, so that it leaves at most one per symbol exactly when
    [get_position] finds no open position for that symbol
    beforehand. *)
Theorem ledger_symbol_uniqueness (w : World) :
  one_position_per_symbol (self w) ->
  (forall position reason,
      one_position_per_symbol
        (self (run (simulate_position_exit position reason) w)))
  /\ (forall order stop_loss take_profit,
        let w' :=
          run (simulate_order_placement order
                 (mkRiskMgmt (Some stop_loss) (Some take_profit))) w in
        map p_symbol (positions (self w')) =
          map p_symbol (positions (self w)) ++ [o_symbol order]
        /\ (one_position_per_symbol (self w')
            <-> result (get_position (o_symbol order)) w = Return None)).
Proof.
  unfold one_position_per_symbol. intros H. split.
  - intros position reason. unfold run.
    rewrite simulate_position_exit_ok. simpl.
    now apply NoDup_map_filter.
  - intros order stop_loss take_profit. cbv zeta. unfold run.
    rewrite simulate_order_placement_ok. simpl.
    rewrite map_app. simpl. split; [reflexivity|].
    rewrite NoDup_snoc, <- find_symbol_none.
    unfold result, get_position, bind, get_self, ret. simpl.
    split.
    + intros [_ Hn]. now rewrite Hn.
    + intros Hr. split; [exact H|]. now injection Hr.
Qed.

Lemma ledger_symbol_uniqueness_witness :
  one_position_per_symbol (self one_position_world)
  /\ one_position_per_symbol
       (self (run (simulate_position_exit other_position "manual")
                  one_position_world)).
Proof.
  assert (H : one_position_per_symbol (self one_position_world)).
  { unfold one_position_per_symbol. simpl.
    constructor; [intros [] | constructor]. }
  split; [exact H|].
  exact (proj1 (ledger_symbol_uniqueness one_position_world H)
               other_position "manual").
Defined.

(* ===================================================================== *)
(** * The strategies *)
(* ===================================================================== *)

Lemma bind_returns {A B} (c : M A) (k : A -> M B) (a : A) (w w' : World) :
  c w = (Return a, w') -> bind c k w = k a w'.
Proof. intros H. unfold bind. now rewrite H. Qed.

Lemma seq_delays (i : Z) (n : nat) :
  map (fun j => Some ((i + 1 + Z.of_nat j) * 900)) (seq 0 n) =
  map (fun j => Some ((i + Z.of_nat j) * 900)) (seq 1 n).
Proof.
  rewrite <- seq_shift, map_map. apply map_ext. intros j.
  f_equal. lia.
Qed.

(** The loop of the scaled entry: one order per level, in the order of
    the levels, whether or not the placements succeed. *)
Lemma accumulation_orders_spec symbol position_size risk_mgmt n levels :
  forall offsets i w,
    Forall2 (fun level offset =>
               parse_percentage (lvl_price_offset level) = ret offset)
            levels offsets ->
    exists w' intents,
      accumulation_orders symbol position_size risk_mgmt n i levels w
        = (Return tt, w')
      /\ orders_of (calls w') = orders_of (calls w) ++ intents
      /\ map o_amount intents =
           map (fun level =>
                  (position_size * (lvl_percentage level / 100))%float) levels
      /\ map o_price_offset intents = map Some offsets
      /\ map o_delay intents =
           map (fun j => Some ((i + Z.of_nat j) * 900)) (seq 0 (length levels))
      /\ Forall (fun o => o_symbol o = symbol /\ o_side o = "buy"
                          /\ o_type o = "limit") intents.
Proof.
  induction levels as [|level rest IH]; intros offsets i w Hoff.
  - inversion Hoff; subst. exists w, []. simpl.
    rewrite app_nil_r. repeat split; constructor.
  - inversion Hoff as [|? offset ? offsets' Hparse Hrest]; subst.
    cbn [accumulation_orders]. rewrite Hparse.
    set (order := mkOrder symbol "buy"
                    (position_size * (lvl_percentage level / 100))%float
                    (Some offset) "limit" (Some (i * 900)) (clock w)).
    destruct (simulate_order_placement_frame order risk_mgmt w)
      as [b [bot' Hplace]].
    set (w1 := mkWorld bot' (service w) (clock w) (requests w)
                 (calls w ++ [mkLogged (length (positions (self w)))
                                (CallOrderPlacement order risk_mgmt)])) in *.
    set (w2 := if i <? n - 1
               then mkWorld bot' (service w) (clock w + 5) (requests w)
                            (calls w1)
               else w1).
    assert (Hsleep : (if i <? n - 1 then time_sleep 5 else ret tt) w1
                     = (Return tt, w2)).
    { unfold w2. destruct (i <? n - 1); reflexivity. }
    assert (Hcalls : calls w2 = calls w1).
    { unfold w2. destruct (i <? n - 1); reflexivity. }
    destruct (IH offsets' (i + 1) w2 Hrest)
      as [w' [intents [Hrun [Hord [Ham [Hpo [Hde Hall]]]]]]].
    exists w', (order :: intents).
    split.
    { unfold bind at 1. unfold ret at 1. unfold bind at 1.
      unfold datetime_now at 1. fold order.
      rewrite (bind_returns _ _ b w w1 Hplace).
      rewrite (bind_returns _ _ tt w1 w2 Hsleep). exact Hrun. }
    split.
    { rewrite Hord, Hcalls. unfold w1. cbn [calls].
      rewrite orders_of_app. cbn [orders_of]. now rewrite <- app_assoc. }
    split; [cbn [map]; now rewrite Ham|].
    split; [cbn [map]; now rewrite Hpo|].
    split.
    { cbn [map length seq]. rewrite Hde, seq_delays.
      replace (i + Z.of_nat 0) with i by lia. reflexivity. }
    constructor; [repeat split | exact Hall].
Qed.

(** C2, as stated, fails: with the scaling levels carried by
    [entry_method], as the schema of the specification has them, the
    code finds no [scaling_levels] key in [position_management]; the
    [KeyError] is caught by [execute_strategy], which returns [False]
    having placed no order. *)
Lemma schema_accumulation_places_no_order :
  let w0 := fresh_world (steady_service schema_accumulation) in
  em_scaling_levels
    (pm_entry_method
       (position_management (execution_instructions schema_accumulation)))
    = Some sample_levels
  /\ result (execute_strategy "BTCUSDT" schema_accumulation) w0 = Return false
  /\ orders_of (calls (run (execute_strategy "BTCUSDT" schema_accumulation) w0))
     = [].
Proof. repeat split. Qed.

(** C2, amended: for an ACCUMULATION execution whose
    [position_management] holds an [entry_method] of type
    [scaled_entry] and, next to it, the key [scaling_levels] with N
    levels whose price offsets parse, exactly N limit buy orders are
    placed, in the order of the levels, with
    [amount_i = position_size * (percentage_i / 100)], the parsed
    price offset of level i, and [delay_i = 900 * i]. *)
Theorem accumulation_intents (symbol : string) (instructions : Instructions)
    (levels : list ScalingLevel) (offsets : list float) (w : World) :
  let pm := position_management (execution_instructions instructions) in
  ss_market_phase (signal_summary instructions) = "ACCUMULATION" ->
  em_type (pm_entry_method pm) = "scaled_entry" ->
  pm_scaling_levels pm = Some levels ->
  Forall2 (fun level offset =>
             parse_percentage (lvl_price_offset level) = ret offset)
          levels offsets ->
  result (execute_strategy symbol instructions) w = Return true
  /\ exists intents,
       orders_of (calls (run (execute_strategy symbol instructions) w))
         = orders_of (calls w) ++ intents
       /\ length intents = length levels
       /\ map o_amount intents =
            map (fun level =>
                   (pm_position_size pm * (lvl_percentage level / 100))%float)
                levels
       /\ map o_price_offset intents = map Some offsets
       /\ map o_delay intents =
            map (fun i => Some (900 * Z.of_nat i)) (seq 0 (length levels))
       /\ Forall (fun o => o_symbol o = symbol /\ o_side o = "buy"
                           /\ o_type o = "limit") intents.
Proof.
  intros pm Hphase Htype Hlevels Hoff.
  set (w0 := mkWorld (self w) (service w) (clock w) (requests w)
               (calls w ++ [mkLogged (length (positions (self w)))
                              (CallExecuteStrategy symbol instructions)])).
  destruct (accumulation_orders_spec symbol (pm_position_size pm)
              (risk_management (execution_instructions instructions))
              (Z.of_nat (length levels)) levels offsets 0 w0 Hoff)
    as [w' [intents [Hrun [Hord [Ham [Hpo [Hde Hall]]]]]]].
  assert (E : execute_strategy symbol instructions w = (Return true, w')).
  { unfold execute_strategy. unfold bind at 1. unfold log_call at 1.
    fold w0. unfold try_except. rewrite Hphase. cbn [String.eqb Ascii.eqb Bool.eqb].
    unfold execute_accumulation_strategy. fold pm. rewrite Htype, Hlevels.
    cbn [String.eqb Ascii.eqb Bool.eqb item].
    unfold bind at 1. unfold bind at 1. unfold ret at 1.
    rewrite Hrun. reflexivity. }
  unfold result, run. rewrite E. cbn [fst snd].
  split; [reflexivity|]. exists intents.
  split.
  { rewrite Hord. unfold w0. cbn [calls]. rewrite orders_of_app.
    cbn [orders_of]. now rewrite app_nil_r. }
  split.
  { rewrite <- (length_map o_amount), Ham. apply length_map. }
  split; [exact Ham|]. split; [exact Hpo|]. split; [|exact Hall].
  rewrite Hde. apply map_ext. intros j. f_equal. lia.
Qed.

Lemma accumulation_intents_witness :
  let w0 := fresh_world (steady_service (sibling_accumulation sample_levels)) in
  Forall2 (fun level offset =>
             parse_percentage (lvl_price_offset level) = ret offset)
          sample_levels [(-0.005)%float; (-0.01)%float]
  /\ result (execute_strategy "BTCUSDT" (sibling_accumulation sample_levels)) w0
     = Return true.
Proof.
  intros w0.
  assert (H : Forall2 (fun level offset =>
                         parse_percentage (lvl_price_offset level) = ret offset)
                      sample_levels [(-0.005)%float; (-0.01)%float]).
  { repeat constructor. }
  split; [exact H|].
  exact (proj1 (accumulation_intents "BTCUSDT"
                  (sibling_accumulation sample_levels) sample_levels
                  [(-0.005)%float; (-0.01)%float] w0
                  eq_refl eq_refl eq_refl H)).
Defined.

(** C6: a DISTRIBUTION execution on a symbol with an open position and
    [position_size.percentage = 0] closes that position with the reason
    ["distribution_exit"] and places no order. *)
Theorem distribution_exit_without_order (symbol : string)
    (instructions : Instructions) (position : Position) (w : World) :
  ss_market_phase (signal_summary instructions) = "DISTRIBUTION" ->
  pm_position_size (position_management (execution_instructions instructions))
    = 0%float ->
  result (get_position symbol) w = Return (Some position) ->
  let w' := run (execute_strategy symbol instructions) w in
  result (execute_strategy symbol instructions) w = Return true
  /\ exits_of (calls w') = exits_of (calls w) ++ [(position, "distribution_exit")]
  /\ orders_of (calls w') = orders_of (calls w)
  /\ In position (positions (self w))
  /\ ~ In position (positions (self w'))
  /\ positions (self w') =
       filter (fun p => negb (position_eqb p position)) (positions (self w))
  /\ trade_history (self w') =
       trade_history (self w) ++
       [mkTrade (p_symbol position) "close" (p_side position)
                (p_amount position) (p_entry_price position * 1.02)%float
                (Some "distribution_exit") (clock w)].
Proof.
  intros Hphase Hsize Hpos w'.
  assert (Hfind : find (fun p => String.eqb (p_symbol p) symbol)
                       (positions (self w)) = Some position).
  { unfold result, get_position, bind, get_self, ret in Hpos. simpl in Hpos.
    now injection Hpos. }
  assert (E : execute_strategy symbol instructions w =
              (Return true,
               mkWorld
                 (mkBot (account_balance (self w))
                    (filter (fun p => negb (position_eqb p position))
                            (positions (self w)))
                    (trade_history (self w) ++
                       [close_trade position "distribution_exit" (clock w)])
                    (confidence_threshold (self w)) (max_positions (self w)))
                 (service w) (clock w) (requests w)
                 ((calls w ++ [mkLogged (length (positions (self w)))
                                 (CallExecuteStrategy symbol instructions)])
                    ++ [mkLogged (length (positions (self w)))
                          (CallPositionExit position "distribution_exit")]))).
  { unfold execute_strategy, try_except, bind, log_call. rewrite Hphase.
    cbn [String.eqb Ascii.eqb Bool.eqb].
    unfold execute_distribution_strategy, get_position, get_self, ret, bind.
    cbn [self positions]. rewrite Hfind. rewrite simulate_position_exit_ok.
    rewrite Hsize. reflexivity. }
  subst w'. unfold result, run. rewrite E. cbn [fst snd self calls positions
                                                trade_history].
  split; [reflexivity|].
  split.
  { rewrite !exits_of_app. cbn [exits_of]. now rewrite app_nil_r. }
  split.
  { rewrite !orders_of_app. cbn [orders_of]. now rewrite !app_nil_r. }
  split; [eapply find_some; exact Hfind|].
  split; [apply not_in_filter_other|].
  split; reflexivity.
Qed.

(** A ledger holding an open long position for BTCUSDT. *)
Lemma distribution_exit_without_order_witness :
  let instructions :=
    sample_instructions "DISTRIBUTION"
      (mkPositionMgmt (mkEntryMethod "market" None None) 0%float None) in
  let w := mkWorld (mkBot 10000%float [other_position; sample_position] [] 50 5)
                   (steady_service instructions) 9 0 [] in
  result (get_position "BTCUSDT") w = Return (Some sample_position)
  /\ positions (self (run (execute_strategy "BTCUSDT" instructions) w))
     = [other_position]
  /\ orders_of (calls (run (execute_strategy "BTCUSDT" instructions) w)) = [].
Proof.
  intros instructions w.
  assert (H : result (get_position "BTCUSDT") w = Return (Some sample_position))
    by reflexivity.
  split; [exact H|].
  destruct (distribution_exit_without_order "BTCUSDT" instructions
              sample_position w eq_refl eq_refl H)
    as [_ [_ [Ho [_ [_ [Hp _]]]]]].
  split; [rewrite Hp; reflexivity | rewrite Ho; reflexivity].
Defined.

(** X24: the DISTRIBUTION arm closes before it opens.  With an open
    position for the symbol and a positive percentage, the exit of
    that position, with the reason ["distribution_exit"], is made
    before the market sell order is placed, and these are its only
    two calls to the ledger. *)
Lemma distribution_exit_precedes_order (symbol : string)
    (position_mgmt : PositionMgmt) (risk_mgmt : RiskMgmt)
    (position : Position) (w : World) :
  result (get_position symbol) w = Return (Some position) ->
  (0 <? pm_position_size position_mgmt)%float = true ->
  map what
      (calls (run (execute_distribution_strategy symbol position_mgmt risk_mgmt)
                  w)) =
  map what (calls w) ++
  [CallPositionExit position "distribution_exit";
   CallOrderPlacement
     (mkOrder symbol "sell" (pm_position_size position_mgmt) None "market"
              None (clock w))
     risk_mgmt].
Proof.
  intros Hpos Hsize.
  assert (Hfind : find (fun p => String.eqb (p_symbol p) symbol)
                       (positions (self w)) = Some position).
  { unfold result, get_position, bind, get_self, ret in Hpos. simpl in Hpos.
    now injection Hpos. }
  unfold run, execute_distribution_strategy, get_position, get_self, ret, bind.
  cbn [self positions]. rewrite Hfind, simulate_position_exit_ok, Hsize.
  unfold datetime_now. cbn [clock].
  match goal with
  | |- context [simulate_order_placement ?o ?r ?x] =>
      destruct (simulate_order_placement_frame o r x) as [b [bot' Hp]];
      rewrite Hp
  end.
  cbn [snd calls]. rewrite !map_app. cbn [map what].
  now rewrite <- app_assoc.
Qed.

(** C7: for NEUTRAL and for every phase string other than the five
    recognised ones, [execute_strategy] runs the neutral strategy and
    returns [True]; it places exactly one limit buy order, of amount
    [position_size.percentage * 0.5], when the percentage is positive,
    and no order when it is 0. *)
Theorem neutral_fallback (symbol : string) (instructions : Instructions)
    (w : World) :
  let phase := ss_market_phase (signal_summary instructions) in
  let pm := position_management (execution_instructions instructions) in
  let rm := risk_management (execution_instructions instructions) in
  phase <> "ACCUMULATION" -> phase <> "DISTRIBUTION" -> phase <> "MARKUP" ->
  phase <> "MARKDOWN" -> phase <> "CONSOLIDATION" ->
  let w' := run (execute_strategy symbol instructions) w in
  execute_strategy symbol instructions w =
    (log_call (CallExecuteStrategy symbol instructions) ;;
     try_except (execute_neutral_strategy symbol pm rm)
                (fun _ => ret false))%py w
  /\ result (execute_strategy symbol instructions) w = Return true
  /\ orders_of (calls w') =
       orders_of (calls w) ++
       (if (0 <? pm_position_size pm)%float
        then [mkOrder symbol "buy" (pm_position_size pm * 0.5)%float None
                      "limit" None (clock w)]
        else [])
  /\ (pm_position_size pm = 0%float -> orders_of (calls w') = orders_of (calls w)).
Proof.
  intros phase pm rm H1 H2 H3 H4 H5 w'.
  apply String.eqb_neq in H1, H2, H3, H4, H5.
  assert (D : execute_strategy symbol instructions w =
              (log_call (CallExecuteStrategy symbol instructions) ;;
               try_except (execute_neutral_strategy symbol pm rm)
                          (fun _ => ret false))%py w).
  { unfold execute_strategy, bind, try_except. cbn [log_call].
    fold phase. rewrite H1, H2, H3, H4, H5. reflexivity. }
  assert (O : result (execute_strategy symbol instructions) w = Return true
              /\ orders_of (calls w') =
                   orders_of (calls w) ++
                   (if (0 <? pm_position_size pm)%float
                    then [mkOrder symbol "buy" (pm_position_size pm * 0.5)%float
                                  None "limit" None (clock w)]
                    else [])).
  { subst w'. unfold result, run. rewrite D.
    unfold execute_neutral_strategy, bind, try_except, log_call.
    cbn [fst snd]. destruct (0 <? pm_position_size pm)%float.
    - unfold datetime_now. cbn [clock].
      match goal with
      | |- context [simulate_order_placement ?o ?r ?x] =>
          destruct (simulate_order_placement_frame o r x) as [b [bot' Hp]];
          rewrite Hp
      end.
      cbn [fst snd ret calls]. split; [reflexivity|].
      rewrite !orders_of_app. cbn [orders_of]. now rewrite app_nil_r.
    - cbn [fst snd ret calls]. split; [reflexivity|].
      rewrite orders_of_app. reflexivity. }
  destruct O as [O1 O2].
  split; [exact D|]. split; [exact O1|]. split; [exact O2|].
  intros Hzero. rewrite O2, Hzero. apply app_nil_r.
Qed.

(** The scenario of the specification: NEUTRAL, percentage 0.04. *)
Lemma neutral_fallback_witness :
  let instructions :=
    sample_instructions "NEUTRAL"
      (mkPositionMgmt (mkEntryMethod "limit_entry" None None) 0.04%float None) in
  let w := fresh_world (steady_service instructions) in
  orders_of (calls (run (execute_strategy "BTCUSDT" instructions) w)) =
    [mkOrder "BTCUSDT" "buy" 0.02%float None "limit" None 0].
Proof.
  intros instructions w.
  assert (N : forall s, "NEUTRAL" = s -> String.eqb "NEUTRAL" s = true)
    by (intros s <-; reflexivity).
  destruct (neutral_fallback "BTCUSDT" instructions w) as [_ [_ [Ho _]]];
    try (intros E; apply N in E; discriminate E).
  rewrite Ho. reflexivity.
Defined.

(* ===================================================================== *)
(** * The gates of [analyze_symbol] and the trading cycle *)
(* ===================================================================== *)

(** C9: when the signal of a symbol has a confidence strictly below
    [confidence_threshold], [analyze_symbol] returns [False] without
    calling [execute_strategy] or a ledger method; the open positions
    and the trade history are unchanged. *)
Theorem confidence_gate (symbol : string) (signal : Signal) (w : World) :
  post_signal (service w) (requests w) symbol = Return signal ->
  sig_confidence signal < confidence_threshold (self w) ->
  let w' := run (analyze_symbol symbol) w in
  result (analyze_symbol symbol) w = Return false
  /\ calls w' = calls w
  /\ positions (self w') = positions (self w)
  /\ trade_history (self w') = trade_history (self w).
Proof.
  intros Hsig Hlow w'. subst w'.
  apply Z.ltb_lt in Hlow.
  unfold result, run, analyze_symbol, get_enhanced_signal,
    except_request_exception, requests_post, get_self, ret, bind.
  rewrite Hsig. cbn [self]. rewrite Hlow. repeat split.
Qed.

Lemma confidence_gate_witness :
  let svc :=
    mkService (fun _ _ => Return (mkSignal 49 "MARKUP" "momentum" "BUY"))
              (fun _ _ => Return (sibling_accumulation sample_levels))
              (fun _ _ _ => Return (mkValidation (Some true))) in
  49 < confidence_threshold (self (fresh_world svc))
  /\ result (analyze_symbol "BTCUSDT") (fresh_world svc) = Return false
  /\ calls (run (analyze_symbol "BTCUSDT") (fresh_world svc)) = [].
Proof.
  intros svc.
  assert (H : 49 < confidence_threshold (self (fresh_world svc)))
    by (simpl; lia).
  split; [exact H|].
  destruct (confidence_gate "BTCUSDT" (mkSignal 49 "MARKUP" "momentum" "BUY")
              (fresh_world svc) eq_refl H) as [Hr [Hc _]].
  split; [exact Hr | exact Hc].
Defined.

(** With the ledger at or above [max_positions], the analysis of a
    symbol ends before [execute_strategy], whatever the service does:
    it returns [False], or a request raised an exception that is not
    caught.  Only the count of requests changes. *)
Lemma analyze_symbol_full (symbol : string) (w : World) :
  max_positions (self w) <= Z.of_nat (length (positions (self w))) ->
  exists r k,
    analyze_symbol symbol w =
      (r, mkWorld (self w) (service w) (clock w) k (calls w))
    /\ (r = Return false
        \/ exists e, r = Raise e /\ Py.is_request_exception e = false).
Proof.
  intros Hfull. apply Z.leb_le in Hfull.
  unfold analyze_symbol, get_enhanced_signal, get_bot_instructions,
    validate_strategy, except_request_exception, requests_post, get_self,
    ret, bind.
  destruct (post_signal (service w) (requests w) symbol) as [signal|e].
  2: { destruct (Py.is_request_exception e) eqn:E;
       do 2 eexists; (split; [reflexivity|]); eauto. }
  cbn [self service requests].
  destruct (sig_confidence signal <? confidence_threshold (self w)).
  { do 2 eexists; split; [reflexivity|]; auto. }
  cbn [self service requests].
  destruct (post_bot_instructions (service w) (S (requests w)) symbol)
    as [instructions|e].
  2: { destruct (Py.is_request_exception e) eqn:E;
       do 2 eexists; (split; [reflexivity|]); eauto. }
  cbn [self service requests].
  destruct (post_validate_strategy (service w) (S (S (requests w))) signal
              (self w)) as [[[[|]|]]|e];
    cbn [v_valid negb self service requests positions].
  - rewrite Hfull. do 2 eexists; split; [reflexivity|]; auto.
  - do 2 eexists; split; [reflexivity|]; auto.
  - do 2 eexists; split; [reflexivity|]; auto.
  - destruct (Py.is_request_exception e) eqn:E;
      cbn [v_valid negb self service requests positions];
      do 2 eexists; (split; [reflexivity|]); eauto.
Qed.

(** C10: whenever the number of open positions is at least
    [max_positions] when a symbol is analysed, [analyze_symbol] ends
    before [execute_strategy], also for DISTRIBUTION and MARKDOWN
    signals: it returns [False] (or one of its requests raised an
    exception that the bot does not catch, which ends the analysis as
    well), no ledger method is called and no open position is
    closed. *)
Theorem full_ledger_blocks_exits (symbol : string) (w : World) :
  max_positions (self w) <= Z.of_nat (length (positions (self w))) ->
  let w' := run (analyze_symbol symbol) w in
  (result (analyze_symbol symbol) w = Return false
   \/ exists e, result (analyze_symbol symbol) w = Raise e
                /\ Py.is_request_exception e = false)
  /\ calls w' = calls w
  /\ exits_of (calls w') = exits_of (calls w)
  /\ positions (self w') = positions (self w)
  /\ trade_history (self w') = trade_history (self w).
Proof.
  intros Hfull w'. subst w'.
  destruct (analyze_symbol_full symbol w Hfull) as [r [k [E Hr]]].
  unfold result, run. rewrite E. cbn [fst snd self calls].
  split; [exact Hr|]. repeat split.
Qed.

(** Five open positions, one of them for BTCUSDT, and a service that
    returns a DISTRIBUTION signal for BTCUSDT, its instructions and a
    positive validation. *)
Lemma full_ledger_blocks_exits_witness :
  let instructions :=
    sample_instructions "DISTRIBUTION"
      (mkPositionMgmt (mkEntryMethod "market" None None) 0%float None) in
  let svc :=
    mkService
      (fun _ _ => Return (mkSignal 80 "DISTRIBUTION" "risk_off" "SELL"))
      (fun _ _ => Return instructions)
      (fun _ _ _ => Return (mkValidation (Some true))) in
  let w := mkWorld (mkBot 10000%float
                      [sample_position; other_position; other_position;
                       other_position; other_position] [] 50 5)
                   svc 9 0 [] in
  max_positions (self w) <= Z.of_nat (length (positions (self w)))
  /\ result (analyze_symbol "BTCUSDT") w = Return false
  /\ positions (self (run (analyze_symbol "BTCUSDT") w)) = positions (self w).
Proof.
  intros instructions svc w.
  assert (H : max_positions (self w) <= Z.of_nat (length (positions (self w))))
    by (simpl; lia).
  split; [exact H|].
  destruct (full_ledger_blocks_exits "BTCUSDT" w H) as [_ [_ [_ [Hp _]]]].
  split; [reflexivity | exact Hp].
Defined.

(** ** The cycle *)

(** One iteration of the loop over the symbols always completes. *)
Lemma cycle_step_returns (symbol : string) (w : World) :
  exists w1,
    try_except (analyze_symbol symbol ;; time_sleep 2) (fun _ => ret tt) w
    = (Return tt, w1).
Proof.
  unfold try_except.
  destruct ((analyze_symbol symbol ;; time_sleep 2)%py w) as [[[]|e] w2];
    eexists; reflexivity.
Qed.


Lemma run_trading_cycle_app (before after : list string) (w : World) :
  run (run_trading_cycle (before ++ after)) w =
  run (run_trading_cycle after) (run (run_trading_cycle before) w).
Proof.
  revert w. induction before as [|symbol rest IH]; intros w; [reflexivity|].
  destruct (cycle_step_returns symbol w) as [w1 E].
  unfold run in *. cbn [app run_trading_cycle].
  rewrite !(bind_returns _ _ tt w w1 E). apply IH.
Qed.

Lemma run_trading_cycle_full (symbols : list string) (w : World) :
  max_positions (self w) <= Z.of_nat (length (positions (self w))) ->
  self (run (run_trading_cycle symbols) w) = self w
  /\ calls (run (run_trading_cycle symbols) w) = calls w.
Proof.
  revert w. induction symbols as [|symbol rest IH]; intros w Hfull;
    [split; reflexivity|].
  destruct (analyze_symbol_full symbol w Hfull) as [r [k [E Hr]]].
  assert (S1 : exists c,
             try_except (analyze_symbol symbol ;; time_sleep 2)
                        (fun _ => ret tt) w
             = (Return tt, mkWorld (self w) (service w) c k (calls w))).
  { unfold try_except, bind. rewrite E.
    destruct Hr as [-> | [e [-> _]]]; eexists; reflexivity. }
  destruct S1 as [c S1].
  unfold run in *. cbn [run_trading_cycle].
  rewrite (bind_returns _ _ tt w _ S1).
  apply (IH (mkWorld (self w) (service w) c k (calls w))). exact Hfull.
Qed.

(** C3, as stated, fails: the position count is compared with
    [max_positions] once per symbol, before the strategy runs, and not
    between the orders of one execution.  A new bot
    ([max_positions = 5]) that receives one ACCUMULATION signal with
    seven scaling levels places its sixth and seventh order with five
    and six positions open, and ends the cycle with seven. *)
Lemma accumulation_exceeds_max_positions :
  let w0 := fresh_world (steady_service (sibling_accumulation seven_levels)) in
  let w := run (run_trading_cycle ["BTCUSDT"]) w0 in
  max_positions (self w0) = 5
  /\ placed_when_full (max_positions (self w0)) (calls w) = true
  /\ length (positions (self w)) = 7%nat.
Proof. repeat split. Qed.

(** C3, amended: once the number of open positions is at least
    [max_positions] when the analysis of a symbol begins, no order is
    placed, no position is closed and [execute_strategy] is not called
    for that symbol or any later symbol of the cycle, whatever the
    service answers; the bot is left as it was. *)
Theorem position_count_gate (before after : list string) (w : World) :
  let w1 := run (run_trading_cycle before) w in
  let w2 := run (run_trading_cycle (before ++ after)) w in
  max_positions (self w1) <= Z.of_nat (length (positions (self w1))) ->
  calls w2 = calls w1
  /\ orders_of (calls w2) = orders_of (calls w1)
  /\ self w2 = self w1.
Proof.
  intros w1 w2 Hfull. subst w2. rewrite run_trading_cycle_app. fold w1.
  destruct (run_trading_cycle_full after w1 Hfull) as [Hs Hc].
  rewrite Hc, Hs. repeat split.
Qed.

(** After the first symbol the ledger holds seven positions; the
    analysis of two further symbols changes nothing. *)
Lemma position_count_gate_witness :
  let w0 := fresh_world (steady_service (sibling_accumulation seven_levels)) in
  let w1 := run (run_trading_cycle ["BTCUSDT"]) w0 in
  let w2 := run (run_trading_cycle (["BTCUSDT"] ++ ["ETHUSDT"; "ADAUSDT"])) w0 in
  max_positions (self w1) <= Z.of_nat (length (positions (self w1)))
  /\ self w2 = self w1.
Proof.
  intros w0 w1 w2.
  assert (H : max_positions (self w1) <= Z.of_nat (length (positions (self w1)))).
  { vm_compute. discriminate. }
  split; [exact H|].
  exact (proj2 (proj2 (position_count_gate ["BTCUSDT"] ["ETHUSDT"; "ADAUSDT"]
                         w0 H))).
Defined.

(* ===================================================================== *)
(** * What every method keeps *)
(* ===================================================================== *)

(** The two ledger methods act on the bot as [after_open] and
    [after_close] say, or not at all. *)
Lemma simulate_order_placement_self order risk_mgmt w :
  self (run (simulate_order_placement order risk_mgmt) w) = self w
  \/ exists stop_loss take_profit,
       self (run (simulate_order_placement order risk_mgmt) w)
       = after_open (self w) order stop_loss take_profit.
Proof.
  destruct risk_mgmt as [[sl|] [tp|]]; [right; exists sl, tp | left ..];
    reflexivity.
Qed.

Lemma simulate_position_exit_self position reason w :
  self (run (simulate_position_exit position reason) w)
  = after_close (self w) position reason (clock w).
Proof. reflexivity. Qed.

(** ** Properties of the world kept by every step

    [Q] is kept by a method as soon as it is kept by the effects the
    method is made of: pausing, a request, the record of a call to
    [execute_strategy], and the two ledger methods; for the order
    placements, under a condition [R] on the [risk_management] they
    are given. *)

Section Keeping.

Variable Q : World -> Prop.
Variable R : RiskMgmt -> Prop.
Hypothesis Q_sleep : forall n, keeps Q (time_sleep n).
Hypothesis Q_post :
  forall A (answer : Service -> nat -> outcome A), keeps Q (requests_post answer).
Hypothesis Q_execute :
  forall symbol instructions,
    keeps Q (log_call (CallExecuteStrategy symbol instructions)).
Hypothesis Q_open :
  forall order risk_mgmt,
    R risk_mgmt -> keeps Q (simulate_order_placement order risk_mgmt).
Hypothesis Q_close :
  forall position reason, keeps Q (simulate_position_exit position reason).

Lemma keeps_ret {A} (a : A) : keeps Q (ret a).
Proof. intros w H. exact H. Qed.

Lemma keeps_raise {A} (e : Py.exn) : keeps Q (@raise A e).
Proof. intros w H. exact H. Qed.

Lemma keeps_bind {A B} (c : M A) (k : A -> M B) :
  keeps Q c -> (forall a, keeps Q (k a)) -> keeps Q (bind c k).
Proof.
  intros Hc Hk w H. specialize (Hc w H). unfold run, bind in *.
  destruct (c w) as [[a|e] w1]; cbn [snd] in *.
  - apply (Hk a w1 Hc).
  - exact Hc.
Qed.

Lemma keeps_try_except {A} (body : M A) (handler : Py.exn -> M A) :
  keeps Q body -> (forall e, keeps Q (handler e)) ->
  keeps Q (try_except body handler).
Proof.
  intros Hb Hh w H. specialize (Hb w H). unfold run, try_except in *.
  destruct (body w) as [[a|e] w1]; cbn [snd] in *.
  - exact Hb.
  - apply (Hh e w1 Hb).
Qed.

Lemma keeps_except_request {A} (body handler : M A) :
  keeps Q body -> keeps Q handler ->
  keeps Q (except_request_exception body handler).
Proof.
  intros Hb Hh w H. specialize (Hb w H).
  unfold run, except_request_exception in *.
  destruct (body w) as [[a|e] w1]; cbn [snd] in *.
  - exact Hb.
  - destruct (Py.is_request_exception e); [apply (Hh w1 Hb) | exact Hb].
Qed.

Lemma keeps_get_self : keeps Q get_self.
Proof. intros w H. exact H. Qed.

Lemma keeps_datetime_now : keeps Q datetime_now.
Proof. intros w H. exact H. Qed.

Lemma keeps_item {A} (key : string) (v : option A) : keeps Q (item key v).
Proof. destruct v; intros w H; exact H. Qed.

Lemma keeps_parse_percentage (s : string) : keeps Q (parse_percentage s).
Proof.
  unfold parse_percentage.
  destruct (Py.float_of_str (Py.remove_char "%" s)); intros w H; exact H.
Qed.

Lemma keeps_get_position (symbol : string) : keeps Q (get_position symbol).
Proof. intros w H. exact H. Qed.

Create HintDb keep.

Local Hint Resolve keeps_ret keeps_raise keeps_get_self keeps_datetime_now
  keeps_item keeps_parse_percentage keeps_get_position : keep.

Ltac keep :=
  repeat match goal with
    | |- keeps _ (bind _ _) => apply keeps_bind; [|intros ?]
    | |- keeps _ (try_except _ _) => apply keeps_try_except; [|intros ?]
    | |- keeps _ (except_request_exception _ _) => apply keeps_except_request
    | |- keeps _ (if ?b then _ else _) => destruct b
    | |- keeps _ (match ?x with _ => _ end) => destruct x
    | |- keeps _ _ => solve [auto with keep]
    end.

Lemma keeps_accumulation_orders symbol position_size risk_mgmt n levels :
  R risk_mgmt ->
  forall i,
    keeps Q (accumulation_orders symbol position_size risk_mgmt n i levels).
Proof.
  intros HR. pose proof (fun order => Q_open order risk_mgmt HR).
  induction levels as [|level rest IH]; intros i; cbn [accumulation_orders];
    keep.
Qed.

Lemma keeps_execute_accumulation_strategy symbol position_mgmt risk_mgmt :
  R risk_mgmt ->
  keeps Q (execute_accumulation_strategy symbol position_mgmt risk_mgmt).
Proof.
  intros HR.
  pose proof (fun n levels =>
                keeps_accumulation_orders symbol
                  (pm_position_size position_mgmt) risk_mgmt n levels HR).
  unfold execute_accumulation_strategy. keep.
Qed.

Lemma keeps_execute_distribution_strategy symbol position_mgmt risk_mgmt :
  R risk_mgmt ->
  keeps Q (execute_distribution_strategy symbol position_mgmt risk_mgmt).
Proof.
  intros HR. pose proof (fun order => Q_open order risk_mgmt HR).
  unfold execute_distribution_strategy. keep.
Qed.

Lemma keeps_execute_markup_strategy symbol position_mgmt risk_mgmt :
  R risk_mgmt ->
  keeps Q (execute_markup_strategy symbol position_mgmt risk_mgmt).
Proof.
  intros HR. pose proof (fun order => Q_open order risk_mgmt HR).
  unfold execute_markup_strategy. keep.
Qed.

Lemma keeps_execute_markdown_strategy symbol position_mgmt risk_mgmt :
  R risk_mgmt ->
  keeps Q (execute_markdown_strategy symbol position_mgmt risk_mgmt).
Proof.
  intros HR. pose proof (fun order => Q_open order risk_mgmt HR).
  unfold execute_markdown_strategy. keep.
Qed.

Lemma keeps_execute_consolidation_strategy symbol position_mgmt risk_mgmt :
  R risk_mgmt ->
  keeps Q (execute_consolidation_strategy symbol position_mgmt risk_mgmt).
Proof.
  intros HR. pose proof (fun order => Q_open order risk_mgmt HR).
  unfold execute_consolidation_strategy. keep.
Qed.

Lemma keeps_execute_neutral_strategy symbol position_mgmt risk_mgmt :
  R risk_mgmt ->
  keeps Q (execute_neutral_strategy symbol position_mgmt risk_mgmt).
Proof.
  intros HR. pose proof (fun order => Q_open order risk_mgmt HR).
  unfold execute_neutral_strategy. keep.
Qed.

(** The arms that never call [simulate_position_exit]. *)
Lemma keeps_execute_strategy_without_exit symbol instructions :
  R (risk_management (execution_instructions instructions)) ->
  ss_market_phase (signal_summary instructions) <> "DISTRIBUTION" ->
  ss_market_phase (signal_summary instructions) <> "MARKDOWN" ->
  keeps Q (execute_strategy symbol instructions).
Proof.
  intros HR H1 H2. apply String.eqb_neq in H1, H2.
  pose proof (fun pm => keeps_execute_accumulation_strategy symbol pm _ HR).
  pose proof (fun pm => keeps_execute_markup_strategy symbol pm _ HR).
  pose proof (fun pm => keeps_execute_consolidation_strategy symbol pm _ HR).
  pose proof (fun pm => keeps_execute_neutral_strategy symbol pm _ HR).
  unfold execute_strategy. rewrite H1, H2. keep.
Qed.

Lemma keeps_execute_strategy symbol instructions :
  R (risk_management (execution_instructions instructions)) ->
  keeps Q (execute_strategy symbol instructions).
Proof.
  intros HR.
  pose proof (fun pm => keeps_execute_accumulation_strategy symbol pm _ HR).
  pose proof (fun pm => keeps_execute_distribution_strategy symbol pm _ HR).
  pose proof (fun pm => keeps_execute_markup_strategy symbol pm _ HR).
  pose proof (fun pm => keeps_execute_markdown_strategy symbol pm _ HR).
  pose proof (fun pm => keeps_execute_consolidation_strategy symbol pm _ HR).
  pose proof (fun pm => keeps_execute_neutral_strategy symbol pm _ HR).
  unfold execute_strategy. keep.
Qed.

Lemma keeps_analyze_symbol symbol :
  (forall risk_mgmt, R risk_mgmt) -> keeps Q (analyze_symbol symbol).
Proof.
  intros HR.
  pose proof (fun instructions =>
                keeps_execute_strategy symbol instructions (HR _)).
  unfold analyze_symbol, get_enhanced_signal, get_bot_instructions,
    validate_strategy.
  keep.
Qed.

Lemma keeps_run_trading_cycle symbols :
  (forall risk_mgmt, R risk_mgmt) -> keeps Q (run_trading_cycle symbols).
Proof.
  intros HR. pose proof (fun symbol => keeps_analyze_symbol symbol HR).
  induction symbols as [|symbol rest IH]; cbn [run_trading_cycle]; keep.
Qed.

End Keeping.

(** ** Properties of the bot kept by the two ledger methods *)

Section Preservation.

Variable P : Bot -> Prop.
Hypothesis P_kept : ledger_invariant P.

Lemma preserves_simulate_order_placement order risk_mgmt :
  preserves P (simulate_order_placement order risk_mgmt).
Proof.
  intros w H.
  destruct (simulate_order_placement_self order risk_mgmt w)
    as [-> | [sl [tp ->]]]; [exact H | now apply P_kept].
Qed.

Lemma preserves_simulate_position_exit position reason :
  preserves P (simulate_position_exit position reason).
Proof.
  intros w H. rewrite simulate_position_exit_self. now apply P_kept.
Qed.

Lemma preserves_execute_strategy symbol instructions :
  preserves P (execute_strategy symbol instructions).
Proof.
  apply (keeps_execute_strategy (fun w => P (self w)) (fun _ => True));
    try (intros; intros w H; exact H); try exact I.
  - intros order risk_mgmt _. apply preserves_simulate_order_placement.
  - apply preserves_simulate_position_exit.
Qed.

Lemma preserves_analyze_symbol symbol : preserves P (analyze_symbol symbol).
Proof.
  apply (keeps_analyze_symbol (fun w => P (self w)) (fun _ => True));
    try (intros; intros w H; exact H); try exact I.
  - intros order risk_mgmt _. apply preserves_simulate_order_placement.
  - apply preserves_simulate_position_exit.
  - intros; exact I.
Qed.

Lemma preserves_run_trading_cycle symbols :
  preserves P (run_trading_cycle symbols).
Proof.
  apply (keeps_run_trading_cycle (fun w => P (self w)) (fun _ => True));
    try (intros; intros w H; exact H); try exact I.
  - intros order risk_mgmt _. apply preserves_simulate_order_placement.
  - apply preserves_simulate_position_exit.
  - intros; exact I.
Qed.

End Preservation.

(* ===================================================================== *)
(** * Invariants of the trading cycle *)
(* ===================================================================== *)

(** X1: a trading cycle only appends to the trade history: the trades
    recorded before it are kept, in their order, and every trade it
    adds is an open or a close trade. *)
Theorem trade_history_append_only (symbols : list string) (w : World) :
  exists new,
    trade_history (self (run (run_trading_cycle symbols) w))
    = trade_history (self w) ++ new
    /\ Forall (fun t => t_action t = "open" \/ t_action t = "close") new.
Proof.
  set (P := fun b : Bot =>
              exists new,
                trade_history b = trade_history (self w) ++ new
                /\ Forall (fun t => t_action t = "open" \/ t_action t = "close")
                          new).
  apply (preserves_run_trading_cycle P).
  - split.
    + intros b order sl tp [new [E F]].
      exists (new ++ [open_trade order]). cbn [after_open trade_history].
      rewrite E, app_assoc. split; [reflexivity|].
      apply Forall_app. split; [exact F|]. repeat constructor.
    + intros b position reason now [new [E F]].
      exists (new ++ [close_trade position reason now]).
      cbn [after_close trade_history].
      rewrite E, app_assoc. split; [reflexivity|].
      apply Forall_app. split; [exact F|].
      constructor; [right; reflexivity | constructor].
  - exists []. rewrite app_nil_r. split; [reflexivity | constructor].
Qed.

Lemma configuration_balance (symbols : list string) (w : World) :
  account_balance (self (run (run_trading_cycle symbols) w))
  = account_balance (self w).
Proof.
  apply (preserves_run_trading_cycle
           (fun b => account_balance b = account_balance (self w))).
  - split; intros; assumption.
  - reflexivity.
Qed.

(** X2: a trading cycle leaves the configuration of the bot alone:
    the account balance, the confidence threshold and the position
    limit are the same after it. *)
Theorem configuration_unchanged (symbols : list string) (w : World) :
  let b' := self (run (run_trading_cycle symbols) w) in
  account_balance b' = account_balance (self w)
  /\ confidence_threshold b' = confidence_threshold (self w)
  /\ max_positions b' = max_positions (self w).
Proof.
  apply (preserves_run_trading_cycle
           (fun b => account_balance b = account_balance (self w)
                     /\ confidence_threshold b = confidence_threshold (self w)
                     /\ max_positions b = max_positions (self w))).
  - split; intros; assumption.
  - repeat split.
Qed.

(** X3: the shape of the open positions is kept by a trading cycle:
    if every open position has the status ["open"], the entry price
    50000, the side ["long"] or ["short"] and the value
    [account_balance * amount], so has every open position after the
    cycle. *)
Theorem positions_stay_well_formed (symbols : list string) (w : World) :
  Forall (well_formed_position (account_balance (self w)))
         (positions (self w)) ->
  Forall (well_formed_position (account_balance (self w)))
         (positions (self (run (run_trading_cycle symbols) w))).
Proof.
  intros H.
  set (balance := account_balance (self w)) in *.
  assert (K : account_balance (self (run (run_trading_cycle symbols) w))
              = balance
              /\ Forall (well_formed_position balance)
                        (positions (self (run (run_trading_cycle symbols) w)))).
  { apply (preserves_run_trading_cycle
             (fun b => account_balance b = balance
                       /\ Forall (well_formed_position balance) (positions b))).
    - split.
      + intros b order sl tp [E F]. split; [exact E|].
        cbn [after_open positions]. apply Forall_app. split; [exact F|].
        constructor; [|constructor].
        unfold well_formed_position, opened_position. cbn.
        rewrite E. repeat split.
        destruct (String.eqb (o_side order) "buy"); auto.
      + intros b position reason now [E F]. split; [exact E|].
        cbn [after_close positions].
        apply Forall_forall. intros p Hp. apply filter_In in Hp.
        rewrite Forall_forall in F. apply F. tauto.
    - split; [reflexivity | exact H]. }
  exact (proj2 K).
Qed.

Lemma positions_stay_well_formed_witness :
  let w := fresh_world (steady_service (sibling_accumulation sample_levels)) in
  Forall (well_formed_position (account_balance (self w))) (positions (self w))
  /\ Forall (well_formed_position (account_balance (self w)))
            (positions (self (run (run_trading_cycle ["BTCUSDT"; "ETHUSDT"]) w))).
Proof.
  intros w.
  assert (H : Forall (well_formed_position (account_balance (self w)))
                     (positions (self w))) by constructor.
  split; [exact H|].
  exact (positions_stay_well_formed ["BTCUSDT"; "ETHUSDT"] w H).
Defined.

(** X4: if every open position is recorded by an open trade of the
    history with its symbol, side, amount, entry price and timestamp,
    the same holds after a trading cycle: no position is opened
    without its trade, and no trade is ever removed. *)
Theorem open_positions_are_recorded (symbols : list string) (w : World) :
  (forall p, In p (positions (self w)) ->
     exists t, In t (trade_history (self w)) /\ records_opening p t) ->
  let b' := self (run (run_trading_cycle symbols) w) in
  forall p, In p (positions b') ->
    exists t, In t (trade_history b') /\ records_opening p t.
Proof.
  intros H.
  apply (preserves_run_trading_cycle
           (fun b => forall p, In p (positions b) ->
                       exists t, In t (trade_history b) /\ records_opening p t)).
  - split.
    + intros b order sl tp Hb p Hp. cbn [after_open positions trade_history] in *.
      apply in_app_or in Hp. destruct Hp as [Hp | [<- | []]].
      * destruct (Hb p Hp) as [t [Ht R]]. exists t. split; [|exact R].
        apply in_or_app. now left.
      * exists (open_trade order). split.
        -- apply in_or_app. right. now left.
        -- repeat split.
    + intros b position reason now Hb p Hp.
      cbn [after_close positions trade_history] in *.
      apply filter_In in Hp. destruct (Hb p (proj1 Hp)) as [t [Ht R]].
      exists t. split; [|exact R]. apply in_or_app. now left.
  - exact H.
Qed.

Lemma open_positions_are_recorded_witness :
  let w := fresh_world (steady_service (sibling_accumulation sample_levels)) in
  (forall p, In p (positions (self w)) ->
     exists t, In t (trade_history (self w)) /\ records_opening p t)
  /\ length (positions (self (run (run_trading_cycle ["BTCUSDT"]) w))) = 2%nat
  /\ forall p, In p (positions (self (run (run_trading_cycle ["BTCUSDT"]) w))) ->
       exists t,
         In t (trade_history (self (run (run_trading_cycle ["BTCUSDT"]) w)))
         /\ records_opening p t.
Proof.
  intros w.
  assert (H : forall p, In p (positions (self w)) ->
                exists t, In t (trade_history (self w)) /\ records_opening p t).
  { intros p []. }
  split; [exact H|]. split; [reflexivity|].
  exact (open_positions_are_recorded ["BTCUSDT"] w H).
Defined.

(* ===================================================================== *)
(** * The performance summary *)
(* ===================================================================== *)

Lemma count_action_app action l1 l2 :
  count_action action (l1 ++ l2)
  = (count_action action l1 + count_action action l2)%nat.
Proof. unfold count_action. now rewrite filter_app, length_app. Qed.

Lemma count_open_close (trades : list Trade) :
  Forall (fun t => t_action t = "open" \/ t_action t = "close") trades ->
  length trades
  = (count_action "open" trades + count_action "close" trades)%nat.
Proof.
  unfold count_action.
  induction 1 as [|t rest [E | E] _ IH]; [reflexivity | |];
    cbn [filter length]; rewrite E; cbn; lia.
Qed.

Lemma nunique_le_length (values : list string) :
  (nunique values <= length values)%nat.
Proof.
  induction values as [|v rest IH]; cbn [nunique length]; [lia|].
  destruct (existsb (String.eqb v) rest); lia.
Qed.

Lemma nunique_positive (v : string) (rest : list string) :
  (1 <= nunique (v :: rest))%nat.
Proof.
  revert v. induction rest as [|u rest IH]; intros v; [cbn; lia|].
  cbn [nunique]. destruct (existsb (String.eqb v) (u :: rest)); [|lia].
  apply (IH u).
Qed.

Lemma hd_error_rev_cons {A} (a : A) (l : list A) :
  hd_error (rev (a :: l)) <> None.
Proof.
  destruct (rev (a :: l)) as [|x xs] eqn:E; [|discriminate].
  apply (f_equal (@length A)) in E. rewrite length_rev in E. discriminate E.
Qed.

(** X5: the figures of [get_performance_summary] agree with each other
    after a trading cycle.  From a bot whose trades are open or close
    trades and which holds no more positions than it has open trades,
    the summary after the cycle either reports that nothing was traded,
    the ledger being empty, or gives
    [total_trades = open_trades + closed_trades],
    [open_positions <= open_trades], between one and [total_trades]
    traded symbols, and a last trade. *)
Theorem performance_summary_consistent (symbols : list string) (w : World) :
  Forall (fun t => t_action t = "open" \/ t_action t = "close")
         (trade_history (self w)) ->
  (length (positions (self w))
   <= count_action "open" (trade_history (self w)))%nat ->
  let w' := run (run_trading_cycle symbols) w in
  match result get_performance_summary w' with
  | Return (NoTrades _) =>
      trade_history (self w') = [] /\ positions (self w') = []
  | Return (Summarized p) =>
      total_trades p = (open_trades p + closed_trades p)%nat
      /\ (open_positions p <= open_trades p)%nat
      /\ (1 <= symbols_traded p <= total_trades p)%nat
      /\ last_trade p <> None
      /\ perf_account_balance p = account_balance (self w)
  | Raise _ => False
  end.
Proof.
  intros HF HL w'.
  assert (K : (Forall (fun t => t_action t = "open" \/ t_action t = "close")
                      (trade_history (self w'))
               /\ (length (positions (self w'))
                   <= count_action "open" (trade_history (self w')))%nat)).
  { apply (preserves_run_trading_cycle
             (fun b => Forall (fun t => t_action t = "open" \/ t_action t = "close")
                              (trade_history b)
                       /\ (length (positions b)
                           <= count_action "open" (trade_history b))%nat)).
    - split.
      + intros b order sl tp [F L]. cbn [after_open positions trade_history].
        split.
        * apply Forall_app. split; [exact F|]. repeat constructor.
        * rewrite length_app, count_action_app. cbn. lia.
      + intros b position reason now [F L].
        cbn [after_close positions trade_history]. split.
        * apply Forall_app. split; [exact F|].
          constructor; [right; reflexivity | constructor].
        * rewrite count_action_app.
          pose proof (filter_length_le
                        (fun p => negb (position_eqb p position))
                        (positions b)).
          cbn. lia.
    - split; assumption. }
  destruct K as [F L].
  pose proof (configuration_balance symbols w) as B. fold w' in B.
  unfold result, get_performance_summary, bind, get_self, ret. cbn [fst].
  destruct (trade_history (self w')) as [|t rest] eqn:E; cbn [fst].
  - split; [reflexivity|].
    cbn in L. destruct (positions (self w')); [reflexivity | cbn in L; lia].
  - cbn [total_trades open_trades closed_trades open_positions symbols_traded
         last_trade perf_account_balance].
    split; [now apply count_open_close|]. split; [exact L|].
    split.
    { split; [apply (nunique_positive (t_symbol t))|].
      rewrite <- (length_map t_symbol (t :: rest)). apply nunique_le_length. }
    split; [apply hd_error_rev_cons | exact B].
Qed.

Lemma performance_summary_consistent_witness :
  let w := fresh_world (steady_service (sibling_accumulation sample_levels)) in
  let w' := run (run_trading_cycle ["BTCUSDT"]) w in
  Forall (fun t => t_action t = "open" \/ t_action t = "close")
         (trade_history (self w))
  /\ (length (positions (self w))
      <= count_action "open" (trade_history (self w)))%nat
  /\ match result get_performance_summary w' with
     | Return (NoTrades _) =>
         trade_history (self w') = [] /\ positions (self w') = []
     | Return (Summarized p) =>
         total_trades p = (open_trades p + closed_trades p)%nat
         /\ (open_positions p <= open_trades p)%nat
         /\ (1 <= symbols_traded p <= total_trades p)%nat
         /\ last_trade p <> None
         /\ perf_account_balance p = account_balance (self w)
     | Raise _ => False
     end.
Proof.
  intros w w'.
  assert (H1 : Forall (fun t => t_action t = "open" \/ t_action t = "close")
                      (trade_history (self w))) by constructor.
  assert (H2 : (length (positions (self w))
                <= count_action "open" (trade_history (self w)))%nat)
    by (cbn; lia).
  split; [exact H1|]. split; [exact H2|].
  exact (performance_summary_consistent ["BTCUSDT"] w H1 H2).
Defined.

(* ===================================================================== *)
(** * What the strategies never do *)
(* ===================================================================== *)

(** The whole effect of an order placement on the world. *)
Lemma simulate_order_placement_effect order risk_mgmt w :
  exists bot',
    run (simulate_order_placement order risk_mgmt) w
    = mkWorld bot' (service w) (clock w) (requests w)
        (calls w ++ [mkLogged (length (positions (self w)))
                       (CallOrderPlacement order risk_mgmt)])
    /\ (bot' = self w
        \/ exists stop_loss take_profit,
             risk_mgmt = mkRiskMgmt (Some stop_loss) (Some take_profit)
             /\ bot' = after_open (self w) order stop_loss take_profit).
Proof.
  destruct risk_mgmt as [[sl|] [tp|]]; eexists; (split; [reflexivity|]);
    [right; exists sl, tp; split; reflexivity | left; reflexivity ..].
Qed.


(** X6: only the DISTRIBUTION and MARKDOWN phases ever close a
    position.  For every other phase, [execute_strategy] makes no call
    to [simulate_position_exit], appends no close trade, and keeps
    every open position in its place: the positions after it are the
    positions before it, followed by the ones it opened. *)
Theorem only_distribution_and_markdown_close (symbol : string)
    (instructions : Instructions) (w : World) :
  ss_market_phase (signal_summary instructions) <> "DISTRIBUTION" ->
  ss_market_phase (signal_summary instructions) <> "MARKDOWN" ->
  let w' := run (execute_strategy symbol instructions) w in
  exits_of (calls w') = exits_of (calls w)
  /\ count_action "close" (trade_history (self w'))
     = count_action "close" (trade_history (self w))
  /\ exists new, positions (self w') = positions (self w) ++ new.
Proof.
  intros H1 H2.
  apply (keeps_execute_strategy_without_exit
           (fun w' => exits_of (calls w') = exits_of (calls w)
                      /\ count_action "close" (trade_history (self w'))
                         = count_action "close" (trade_history (self w))
                      /\ exists new,
                           positions (self w') = positions (self w) ++ new)
           (fun _ => True)); try assumption; try exact I.
  - intros n w0 H. exact H.
  - intros s i w0 [E [C N]]. cbn. rewrite exits_of_app, E. cbn.
    rewrite app_nil_r. auto.
  - intros order rm _ w0 [E [C [new N]]].
    destruct (simulate_order_placement_effect order rm w0)
      as [bot' [-> [-> | [sl [tp [_ ->]]]]]]; cbn [calls self];
      rewrite exits_of_app, E; cbn [exits_of]; rewrite app_nil_r;
      (split; [reflexivity|]).
    + split; [exact C | exists new; exact N].
    + cbn [after_open trade_history positions]. split.
      * rewrite count_action_app, C. cbn. lia.
      * exists (new ++ [opened_position (self w0) order sl tp]).
        now rewrite N, app_assoc.
  - repeat split. exists []. now rewrite app_nil_r.
Qed.

Lemma only_distribution_and_markdown_close_witness :
  let instructions := sibling_accumulation sample_levels in
  let w := one_position_world in
  (ss_market_phase (signal_summary instructions) <> "DISTRIBUTION")
  /\ exists new,
       positions (self (run (execute_strategy "ETHUSDT" instructions) w))
       = [other_position] ++ new.
Proof.
  intros instructions w.
  assert (H1 : ss_market_phase (signal_summary instructions) <> "DISTRIBUTION")
    by discriminate.
  assert (H2 : ss_market_phase (signal_summary instructions) <> "MARKDOWN")
    by discriminate.
  split; [exact H1|].
  exact (proj2 (proj2 (only_distribution_and_markdown_close "ETHUSDT"
                         instructions w H1 H2))).
Defined.

(** X7: when [risk_management] lacks the stop-loss price or the
    take-profit levels, a strategy execution opens nothing, whatever
    the phase: every order placement fails as a whole, so no open
    trade is appended and the number of open positions does not
    grow. *)
Theorem missing_risk_key_opens_nothing (symbol : string)
    (instructions : Instructions) (w : World) :
  let rm := risk_management (execution_instructions instructions) in
  rm_stop_loss_price rm = None \/ rm_take_profit_levels rm = None ->
  let w' := run (execute_strategy symbol instructions) w in
  count_action "open" (trade_history (self w'))
  = count_action "open" (trade_history (self w))
  /\ (length (positions (self w')) <= length (positions (self w)))%nat.
Proof.
  intros rm Hmissing.
  apply (keeps_execute_strategy
           (fun w' => count_action "open" (trade_history (self w'))
                      = count_action "open" (trade_history (self w))
                      /\ (length (positions (self w'))
                          <= length (positions (self w)))%nat)
           (fun rm => rm_stop_loss_price rm = None
                      \/ rm_take_profit_levels rm = None));
    try exact Hmissing.
  - intros n w0 H. exact H.
  - intros s i w0 H. exact H.
  - intros order rm0 HR w0 H.
    destruct (simulate_order_placement_effect order rm0 w0)
      as [bot' [-> [-> | [sl [tp [-> _]]]]]]; [exact H|].
    destruct HR as [HR | HR]; discriminate HR.
  - intros position reason w0 [C L]. rewrite simulate_position_exit_self.
    cbn [after_close trade_history positions]. split.
    + rewrite count_action_app, C. cbn. lia.
    + pose proof (filter_length_le (fun p => negb (position_eqb p position))
                                   (positions (self w0))). lia.
  - split; [reflexivity | lia].
Qed.

Lemma missing_risk_key_opens_nothing_witness :
  let instructions :=
    mkInstructions (mkSummary "BUY" "MARKUP" "momentum" 80)
      (mkExecution
         (mkPositionMgmt (mkEntryMethod "immediate_entry" None None)
                         0.05%float None)
         (mkRiskMgmt None (Some [52000%float]))) in
  let w := fresh_world (steady_service instructions) in
  rm_stop_loss_price (risk_management (execution_instructions instructions))
    = None
  /\ result (execute_strategy "BTCUSDT" instructions) w = Return true
  /\ (length (positions (self (run (execute_strategy "BTCUSDT" instructions) w)))
      <= 0)%nat.
Proof.
  intros instructions w.
  split; [reflexivity|]. split; [reflexivity|].
  exact (proj2 (missing_risk_key_opens_nothing "BTCUSDT" instructions w
                  (or_introl eq_refl))).
Defined.

(* ===================================================================== *)
(** * The path of [analyze_symbol] *)
(* ===================================================================== *)

(** Every way through [analyze_symbol], by the answers to its
    requests. *)
Lemma analyze_symbol_paths (symbol : string) (w : World) :
  analyze_symbol symbol w =
  let stop {A} (n : nat) (e : Py.exn) (unavailable : A) :=
    if Py.is_request_exception e
    then (Return unavailable, after_requests n w)
    else (Raise e, after_requests n w) in
  match post_signal (service w) (requests w) symbol with
  | Raise e => stop 1%nat e false
  | Return signal =>
      if sig_confidence signal <? confidence_threshold (self w)
      then (Return false, after_requests 1 w)
      else
        match post_bot_instructions (service w) (S (requests w)) symbol with
        | Raise e => stop 2%nat e false
        | Return instructions =>
            match post_validate_strategy (service w) (S (S (requests w)))
                    signal (self w) with
            | Raise e => stop 3%nat e false
            | Return validation =>
                if negb (match v_valid validation with
                         | Some b => b
                         | None => false
                         end)
                then (Return false, after_requests 3 w)
                else if max_positions (self w)
                        <=? Z.of_nat (length (positions (self w)))
                then (Return false, after_requests 3 w)
                else execute_strategy symbol instructions (after_requests 3 w)
            end
        end
  end.
Proof.
  unfold analyze_symbol, get_enhanced_signal, get_bot_instructions,
    validate_strategy, except_request_exception, requests_post, get_self,
    ret, bind, after_requests.
  destruct (post_signal (service w) (requests w) symbol) as [signal|e];
    [|destruct (Py.is_request_exception e); reflexivity].
  cbn [self service requests].
  destruct (sig_confidence signal <? confidence_threshold (self w));
    [reflexivity|].
  cbn [self service requests].
  destruct (post_bot_instructions (service w) (S (requests w)) symbol)
    as [instructions|e];
    [|destruct (Py.is_request_exception e); reflexivity].
  cbn [self service requests].
  destruct (post_validate_strategy (service w) (S (S (requests w))) signal
              (self w)) as [[[[|]|]]|e];
    cbn [v_valid negb self service requests positions clock calls];
    try reflexivity.
  - destruct (max_positions (self w)
              <=? Z.of_nat (length (positions (self w)))); reflexivity.
  - destruct (Py.is_request_exception e); reflexivity.
Qed.

(** X8: when the signal is available with a confidence of at least
    [confidence_threshold] (the threshold itself passes), the
    instructions are available, the validation answers [valid: True]
    and fewer than [max_positions] positions are open,
    [analyze_symbol] makes three requests and then does exactly what
    [execute_strategy] does on the instructions received. *)
Theorem analysis_runs_strategy (symbol : string) (signal : Signal)
    (instructions : Instructions) (validation : Validation) (w : World) :
  post_signal (service w) (requests w) symbol = Return signal ->
  confidence_threshold (self w) <= sig_confidence signal ->
  post_bot_instructions (service w) (S (requests w)) symbol
    = Return instructions ->
  post_validate_strategy (service w) (S (S (requests w))) signal (self w)
    = Return validation ->
  v_valid validation = Some true ->
  Z.of_nat (length (positions (self w))) < max_positions (self w) ->
  analyze_symbol symbol w
  = execute_strategy symbol instructions (after_requests 3 w).
Proof.
  intros Hs Hc Hi Hv Hvalid Hroom.
  rewrite analyze_symbol_paths, Hs, Hi, Hv, Hvalid. cbn [negb].
  apply Z.ltb_ge in Hc. apply Z.leb_gt in Hroom. now rewrite Hc, Hroom.
Qed.

Lemma analysis_runs_strategy_witness :
  let instructions :=
    sample_instructions "NEUTRAL"
      (mkPositionMgmt (mkEntryMethod "limit_entry" None None) 0.04%float None) in
  let svc :=
    mkService (fun _ _ => Return (mkSignal 50 "NEUTRAL" "range" "HOLD"))
              (fun _ _ => Return instructions)
              (fun _ _ _ => Return (mkValidation (Some true))) in
  confidence_threshold (self (fresh_world svc)) <= 50
  /\ analyze_symbol "BTCUSDT" (fresh_world svc)
     = execute_strategy "BTCUSDT" instructions
         (after_requests 3 (fresh_world svc)).
Proof.
  intros instructions svc.
  assert (Hc : confidence_threshold (self (fresh_world svc)) <= 50)
    by (cbn; lia).
  split; [exact Hc|].
  exact (analysis_runs_strategy "BTCUSDT"
           (mkSignal 50 "NEUTRAL" "range" "HOLD") instructions
           (mkValidation (Some true)) (fresh_world svc)
           eq_refl Hc eq_refl eq_refl eq_refl eq_refl).
Defined.

(** X9: when the signal request fails with a [RequestException],
    [analyze_symbol] returns [False] after that single request: no
    instructions are asked for, nothing is executed and the bot is
    unchanged. *)
Theorem unavailable_signal_skips_symbol (symbol : string) (e : Py.exn)
    (w : World) :
  post_signal (service w) (requests w) symbol = Raise e ->
  Py.is_request_exception e = true ->
  analyze_symbol symbol w = (Return false, after_requests 1 w).
Proof.
  intros Hs He. rewrite analyze_symbol_paths, Hs. cbv beta zeta iota.
  now rewrite He.
Qed.

Lemma unavailable_signal_skips_symbol_witness :
  let svc :=
    mkService (fun _ _ => Raise (Py.RequestException "timeout"))
              (fun _ _ => Return schema_accumulation)
              (fun _ _ _ => Return (mkValidation (Some true))) in
  Py.is_request_exception (Py.RequestException "timeout") = true
  /\ analyze_symbol "BTCUSDT" (fresh_world svc)
     = (Return false, after_requests 1 (fresh_world svc)).
Proof.
  intros svc. split; [reflexivity|].
  exact (unavailable_signal_skips_symbol "BTCUSDT"
           (Py.RequestException "timeout") (fresh_world svc)
           eq_refl eq_refl).
Defined.

(** X10: a validation that is not positive stops the analysis.  When
    the validation request fails with a [RequestException], or its
    answer has no ['valid'] key or a false one, [analyze_symbol]
    returns [False]; [execute_strategy] is not called and the bot is
    unchanged. *)
Theorem validation_gate (symbol : string) (w : World) :
  let w' := run (analyze_symbol symbol) w in
  (forall signal,
      post_signal (service w) (requests w) symbol = Return signal ->
      match post_validate_strategy (service w) (S (S (requests w))) signal
              (self w) with
      | Return validation => v_valid validation <> Some true
      | Raise e => Py.is_request_exception e = true
      end) ->
  (result (analyze_symbol symbol) w = Return false
   \/ exists e, result (analyze_symbol symbol) w = Raise e
                /\ Py.is_request_exception e = false)
  /\ calls w' = calls w
  /\ self w' = self w.
Proof.
  intros w' Hv. subst w'. unfold result, run.
  rewrite analyze_symbol_paths. cbv beta zeta.
  destruct (post_signal (service w) (requests w) symbol) as [signal|e].
  2: { destruct (Py.is_request_exception e) eqn:E; cbn; eauto 6. }
  specialize (Hv signal eq_refl).
  destruct (sig_confidence signal <? confidence_threshold (self w));
    [cbn; auto|].
  destruct (post_bot_instructions (service w) (S (requests w)) symbol)
    as [instructions|e].
  2: { destruct (Py.is_request_exception e) eqn:E; cbn; eauto 6. }
  destruct (post_validate_strategy (service w) (S (S (requests w))) signal
              (self w)) as [[[[|]|]]|e]; cbn [v_valid negb].
  - now contradiction Hv.
  - cbn; auto.
  - cbn; auto.
  - rewrite Hv. cbn; auto.
Qed.

Lemma validation_gate_witness :
  let svc :=
    mkService (fun _ _ => Return (mkSignal 90 "MARKUP" "momentum" "BUY"))
              (fun _ _ => Return schema_accumulation)
              (fun _ _ _ => Return (mkValidation None)) in
  (forall signal,
      post_signal svc 0 "BTCUSDT" = Return signal ->
      match post_validate_strategy svc 2 signal (self (fresh_world svc)) with
      | Return validation => v_valid validation <> Some true
      | Raise e => Py.is_request_exception e = true
      end)
  /\ calls (run (analyze_symbol "BTCUSDT") (fresh_world svc)) = [].
Proof.
  intros svc.
  assert (H : forall signal,
             post_signal svc 0 "BTCUSDT" = Return signal ->
             match post_validate_strategy svc 2 signal (self (fresh_world svc))
             with
             | Return validation => v_valid validation <> Some true
             | Raise e => Py.is_request_exception e = true
             end).
  { intros signal _. cbn. discriminate. }
  split; [exact H|].
  exact (proj1 (proj2 (validation_gate "BTCUSDT" (fresh_world svc) H))).
Defined.



(* ===================================================================== *)
(** * Requests made by a cycle *)
(* ===================================================================== *)

Lemma execute_strategy_no_request symbol instructions w :
  requests (run (execute_strategy symbol instructions) w) = requests w.
Proof.
  apply (keeps_execute_strategy (fun w' => requests w' = requests w)
                                (fun _ => True)); try exact I; try reflexivity.
  - intros n w0 H. exact H.
  - intros s i w0 H. exact H.
  - intros order rm _ w0 H.
    destruct (simulate_order_placement_effect order rm w0) as [bot' [-> _]].
    exact H.
  - intros position reason w0 H. exact H.
Qed.

Lemma analyze_symbol_requests (symbol : string) (w : World) :
  (requests w + 1 <= requests (run (analyze_symbol symbol) w)
   <= requests w + 3)%nat.
Proof.
  unfold run. rewrite analyze_symbol_paths. cbv beta zeta.
  destruct (post_signal (service w) (requests w) symbol) as [signal|e];
    [|destruct (Py.is_request_exception e); cbn; lia].
  destruct (sig_confidence signal <? confidence_threshold (self w));
    [cbn; lia|].
  destruct (post_bot_instructions (service w) (S (requests w)) symbol)
    as [instructions|e];
    [|destruct (Py.is_request_exception e); cbn; lia].
  destruct (post_validate_strategy (service w) (S (S (requests w))) signal
              (self w)) as [validation|e];
    [|destruct (Py.is_request_exception e); cbn; lia].
  destruct (negb _); [cbn; lia|].
  destruct (_ <=? _); [cbn; lia|].
  pose proof (execute_strategy_no_request symbol instructions
                (after_requests 3 w)) as E.
  unfold run in E. rewrite E. cbn. lia.
Qed.

Lemma cycle_step_requests (symbol : string) (w : World) :
  requests (run (try_except (analyze_symbol symbol ;; time_sleep 2)
                            (fun _ => ret tt)) w)
  = requests (run (analyze_symbol symbol) w).
Proof.
  unfold run, try_except, bind.
  destruct (analyze_symbol symbol w) as [[b|e] w1]; reflexivity.
Qed.

(** X12: a trading cycle over [n] symbols makes at least [n] and at
    most [3 * n] requests to the service: every symbol costs the
    signal request, and at most the instructions and the validation
    request besides; the strategies make none. *)
Theorem request_budget (symbols : list string) (w : World) :
  (requests w + length symbols
   <= requests (run (run_trading_cycle symbols) w)
   <= requests w + 3 * length symbols)%nat.
Proof.
  revert w. induction symbols as [|symbol rest IH]; intros w; [cbn; lia|].
  destruct (cycle_step_returns symbol w) as [w1 E].
  pose proof (cycle_step_requests symbol w) as R.
  pose proof (analyze_symbol_requests symbol w) as B.
  unfold run in *. cbn [run_trading_cycle].
  rewrite (bind_returns _ _ tt w w1 E). rewrite E in R. cbn [snd] in R.
  specialize (IH w1). cbn [length]. lia.
Qed.

(* ===================================================================== *)
(** * The other arms of the dispatch *)
(* ===================================================================== *)

(** An order placement always returns; what it did to the bot is one of
    two things. *)
Lemma simulate_order_placement_cases order risk_mgmt w :
  exists b bot',
    simulate_order_placement order risk_mgmt w
    = (Return b,
       mkWorld bot' (service w) (clock w) (requests w)
         (calls w ++ [mkLogged (length (positions (self w)))
                        (CallOrderPlacement order risk_mgmt)]))
    /\ (bot' = self w
        \/ exists stop_loss take_profit,
             bot' = after_open (self w) order stop_loss take_profit).
Proof.
  destruct risk_mgmt as [[sl|] [tp|]]; do 2 eexists;
    (split; [reflexivity|]); [right; exists sl, tp | left ..]; reflexivity.
Qed.

Ltac place_order b bot' Hbot :=
  match goal with
  | |- context [simulate_order_placement ?o ?r ?x] =>
      let Hp := fresh "Hp" in
      destruct (simulate_order_placement_cases o r x)
        as [b [bot' [Hp Hbot]]];
      rewrite Hp
  end.

(** X13: the MARKUP arm does not test the size.  With an entry method
    of type [immediate_entry] it places one market buy order for
    [position_size.percentage] as it is, be it zero or negative; with
    any other entry method it places nothing.  It returns [True] in
    both cases. *)
Theorem markup_skips_the_size_test (symbol : string)
    (instructions : Instructions) (w : World) :
  let pm := position_management (execution_instructions instructions) in
  ss_market_phase (signal_summary instructions) = "MARKUP" ->
  let w' := run (execute_strategy symbol instructions) w in
  result (execute_strategy symbol instructions) w = Return true
  /\ orders_of (calls w') =
       orders_of (calls w) ++
       (if String.eqb (em_type (pm_entry_method pm)) "immediate_entry"
        then [mkOrder symbol "buy" (pm_position_size pm) None "market" None
                      (clock w)]
        else []).
Proof.
  intros pm Hphase w'. subst w'.
  unfold result, run, execute_strategy, try_except, bind, log_call.
  rewrite Hphase. cbn [String.eqb Ascii.eqb Bool.eqb].
  unfold execute_markup_strategy, bind. fold pm.
  destruct (String.eqb (em_type (pm_entry_method pm)) "immediate_entry").
  - unfold datetime_now. cbn [clock]. place_order b bot' Hbot.
    cbn [fst snd ret calls]. split; [reflexivity|].
    rewrite !orders_of_app. cbn [orders_of]. now rewrite app_nil_r.
  - cbn [fst snd ret calls]. split; [reflexivity|].
    rewrite orders_of_app. reflexivity.
Qed.

(** A size of zero: the order is placed and a position of amount 0 is
    opened. *)
Lemma markup_skips_the_size_test_witness :
  let instructions :=
    sample_instructions "MARKUP"
      (mkPositionMgmt (mkEntryMethod "immediate_entry" None None)
                      0%float None) in
  let w := fresh_world (steady_service instructions) in
  orders_of (calls (run (execute_strategy "BTCUSDT" instructions) w))
  = [mkOrder "BTCUSDT" "buy" 0%float None "market" None 0]
  /\ map p_amount (positions (self (run (execute_strategy "BTCUSDT"
                                           instructions) w)))
     = [0%float].
Proof.
  intros instructions w. split; [|reflexivity].
  exact (proj2 (markup_skips_the_size_test "BTCUSDT" instructions w eq_refl)).
Defined.

(** X14: the MARKDOWN arm closes the position that [get_position]
    finds only if its side is ["long"], with the reason
    ["markdown_exit"]; a position of another side is left open.  Then
    it places one limit sell order if
    [position_size.percentage > 0], so that a short position can be
    joined by a second one for the same symbol. *)
Theorem markdown_closes_long_only (symbol : string)
    (instructions : Instructions) (position : Position) (w : World) :
  let pm := position_management (execution_instructions instructions) in
  ss_market_phase (signal_summary instructions) = "MARKDOWN" ->
  result (get_position symbol) w = Return (Some position) ->
  let w' := run (execute_strategy symbol instructions) w in
  result (execute_strategy symbol instructions) w = Return true
  /\ exits_of (calls w') =
       exits_of (calls w) ++
       (if String.eqb (p_side position) "long"
        then [(position, "markdown_exit")] else [])
  /\ orders_of (calls w') =
       orders_of (calls w) ++
       (if (0 <? pm_position_size pm)%float
        then [mkOrder symbol "sell" (pm_position_size pm) None "limit" None
                      (clock w)]
        else [])
  /\ (String.eqb (p_side position) "long" = false ->
      In position (positions (self w'))).
Proof.
  intros pm Hphase Hpos w'. subst w'.
  assert (Hfind : find (fun p => String.eqb (p_symbol p) symbol)
                       (positions (self w)) = Some position).
  { unfold result, get_position, bind, get_self, ret in Hpos. simpl in Hpos.
    now injection Hpos. }
  pose proof (find_some _ _ Hfind) as [Hin _].
  unfold result, run, execute_strategy, try_except, bind, log_call.
  rewrite Hphase. cbn [String.eqb Ascii.eqb Bool.eqb].
  unfold execute_markdown_strategy, get_position, get_self, ret, bind.
  cbn [self positions]. rewrite Hfind. fold pm.
  destruct (String.eqb (p_side position) "long").
  - rewrite simulate_position_exit_ok.
    destruct (0 <? pm_position_size pm)%float.
    + unfold datetime_now. cbn [clock]. place_order b bot' Hbot.
      cbn [fst snd calls]. split; [reflexivity|].
      rewrite !exits_of_app, !orders_of_app. cbn [exits_of orders_of].
      rewrite !app_nil_r. repeat split. discriminate.
    + cbn [fst snd calls]. split; [reflexivity|].
      rewrite !exits_of_app, !orders_of_app. cbn [exits_of orders_of].
      rewrite !app_nil_r. repeat split. discriminate.
  - destruct (0 <? pm_position_size pm)%float.
    + unfold datetime_now. cbn [clock]. place_order b bot' Hbot.
      cbn [fst snd calls self]. split; [reflexivity|].
      rewrite !exits_of_app, !orders_of_app. cbn [exits_of orders_of].
      rewrite !app_nil_r. repeat split. intros _.
      destruct Hbot as [-> | [sl [tp ->]]]; cbn [self after_open positions];
        [exact Hin | apply in_or_app; now left].
    + cbn [fst snd calls self]. split; [reflexivity|].
      rewrite !exits_of_app, !orders_of_app. cbn [exits_of orders_of].
      rewrite !app_nil_r. repeat split. intros _. exact Hin.
Qed.

(** An open short position for ETHUSDT and a MARKDOWN signal for it:
    afterwards two positions are open for ETHUSDT. *)
Lemma markdown_closes_long_only_witness :
  let instructions :=
    sample_instructions "MARKDOWN"
      (mkPositionMgmt (mkEntryMethod "market" None None) 0.03%float None) in
  result (get_position "ETHUSDT") one_position_world
    = Return (Some other_position)
  /\ exits_of (calls (run (execute_strategy "ETHUSDT" instructions)
                          one_position_world)) = []
  /\ map p_symbol (positions (self (run (execute_strategy "ETHUSDT"
                                           instructions) one_position_world)))
     = ["ETHUSDT"; "ETHUSDT"].
Proof.
  intros instructions.
  assert (H : result (get_position "ETHUSDT") one_position_world
              = Return (Some other_position)) by reflexivity.
  split; [exact H|]. split; [|reflexivity].
  exact (proj1 (proj2 (markdown_closes_long_only "ETHUSDT" instructions
                         other_position one_position_world eq_refl H))).
Defined.

Lemma default_price_offset : parse_percentage "-0.1%" = ret (-0.001)%float.
Proof. vm_compute. reflexivity. Qed.

(** X15: the CONSOLIDATION arm, given an entry method of type
    [limit_entry] without a [price_offset] key, falls back on
    ["-0.1%"]: it places one limit buy order for
    [position_size.percentage] at the price offset -0.001, and returns
    [True]. *)
Theorem consolidation_default_offset (symbol : string)
    (instructions : Instructions) (w : World) :
  let pm := position_management (execution_instructions instructions) in
  ss_market_phase (signal_summary instructions) = "CONSOLIDATION" ->
  em_type (pm_entry_method pm) = "limit_entry" ->
  em_price_offset (pm_entry_method pm) = None ->
  let w' := run (execute_strategy symbol instructions) w in
  result (execute_strategy symbol instructions) w = Return true
  /\ orders_of (calls w') =
       orders_of (calls w) ++
       [mkOrder symbol "buy" (pm_position_size pm) (Some (-0.001)%float)
                "limit" None (clock w)].
Proof.
  intros pm Hphase Htype Hoff w'. subst w'.
  unfold result, run, execute_strategy, try_except, bind, log_call.
  rewrite Hphase. cbn [String.eqb Ascii.eqb Bool.eqb].
  unfold execute_consolidation_strategy. fold pm. rewrite Htype, Hoff.
  cbn [String.eqb Ascii.eqb Bool.eqb]. rewrite default_price_offset.
  unfold bind, ret, datetime_now. cbn [clock]. place_order b bot' Hbot.
  cbn [fst snd calls]. split; [reflexivity|].
  rewrite !orders_of_app. cbn [orders_of]. now rewrite app_nil_r.
Qed.

Lemma consolidation_default_offset_witness :
  let instructions :=
    sample_instructions "CONSOLIDATION"
      (mkPositionMgmt (mkEntryMethod "limit_entry" None None) 0.05%float None) in
  let w := fresh_world (steady_service instructions) in
  map o_price_offset
      (orders_of (calls (run (execute_strategy "BTCUSDT" instructions) w)))
  = [Some (-0.001)%float].
Proof.
  intros instructions w.
  rewrite (proj2 (consolidation_default_offset "BTCUSDT" instructions w
                    eq_refl eq_refl eq_refl)).
  reflexivity.
Defined.

(** X16: a price offset that is not a number makes the CONSOLIDATION
    arm fail before anything is done: [execute_strategy] catches the
    [ValueError] and returns [False], no order is placed and the bot
    is unchanged. *)
Theorem consolidation_malformed_offset (symbol : string)
    (instructions : Instructions) (offset : string) (w : World) :
  let pm := position_management (execution_instructions instructions) in
  ss_market_phase (signal_summary instructions) = "CONSOLIDATION" ->
  em_type (pm_entry_method pm) = "limit_entry" ->
  em_price_offset (pm_entry_method pm) = Some offset ->
  Py.float_of_str (Py.remove_char "%" offset) = None ->
  let w' := run (execute_strategy symbol instructions) w in
  result (execute_strategy symbol instructions) w = Return false
  /\ orders_of (calls w') = orders_of (calls w)
  /\ self w' = self w.
Proof.
  intros pm Hphase Htype Hoff Hbad w'. subst w'.
  unfold result, run, execute_strategy, try_except, bind, log_call.
  rewrite Hphase. cbn [String.eqb Ascii.eqb Bool.eqb].
  unfold execute_consolidation_strategy. fold pm. rewrite Htype, Hoff.
  cbn [String.eqb Ascii.eqb Bool.eqb].
  unfold parse_percentage. rewrite Hbad. cbn.
  rewrite orders_of_app. cbn. now rewrite app_nil_r.
Qed.

Lemma consolidation_malformed_offset_witness :
  let instructions :=
    sample_instructions "CONSOLIDATION"
      (mkPositionMgmt (mkEntryMethod "limit_entry" (Some "ten%") None)
                      0.05%float None) in
  let w := fresh_world (steady_service instructions) in
  Py.float_of_str (Py.remove_char "%" "ten%") = None
  /\ result (execute_strategy "BTCUSDT" instructions) w = Return false.
Proof.
  intros instructions w.
  assert (H : Py.float_of_str (Py.remove_char "%" "ten%") = None)
    by reflexivity.
  split; [exact H|].
  exact (proj1 (consolidation_malformed_offset "BTCUSDT" instructions "ten%"
                  w eq_refl eq_refl eq_refl H)).
Defined.

(** The loop over the scaling levels, up to a level: the orders of the
    levels before it are placed, in their order. *)
Lemma accumulation_orders_prefix symbol position_size risk_mgmt n good :
  forall offsets tail i w,
    Forall2 (fun level offset =>
               parse_percentage (lvl_price_offset level) = ret offset)
            good offsets ->
    exists w1 intents,
      accumulation_orders symbol position_size risk_mgmt n i (good ++ tail) w
      = accumulation_orders symbol position_size risk_mgmt n
          (i + Z.of_nat (length good)) tail w1
      /\ orders_of (calls w1) = orders_of (calls w) ++ intents
      /\ map o_amount intents =
           map (fun level =>
                  (position_size * (lvl_percentage level / 100))%float) good
      /\ map o_price_offset intents = map Some offsets.
Proof.
  induction good as [|level rest IH]; intros offsets tail i w Hoff.
  - inversion Hoff; subst. exists w, []. cbn [app length Z.of_nat].
    rewrite Z.add_0_r, app_nil_r. repeat split.
  - inversion Hoff as [|? offset ? offsets' Hparse Hrest]; subst.
    cbn [app accumulation_orders]. rewrite Hparse.
    set (order := mkOrder symbol "buy"
                    (position_size * (lvl_percentage level / 100))%float
                    (Some offset) "limit" (Some (i * 900)) (clock w)).
    destruct (simulate_order_placement_frame order risk_mgmt w)
      as [b [bot' Hplace]].
    set (w1 := mkWorld bot' (service w) (clock w) (requests w)
                 (calls w ++ [mkLogged (length (positions (self w)))
                                (CallOrderPlacement order risk_mgmt)])) in *.
    set (w2 := if i <? n - 1
               then mkWorld bot' (service w) (clock w + 5) (requests w)
                            (calls w1)
               else w1).
    assert (Hsleep : (if i <? n - 1 then time_sleep 5 else ret tt) w1
                     = (Return tt, w2)).
    { unfold w2. destruct (i <? n - 1); reflexivity. }
    assert (Hcalls : calls w2 = calls w1).
    { unfold w2. destruct (i <? n - 1); reflexivity. }
    destruct (IH offsets' tail (i + 1) w2 Hrest)
      as [w' [intents [Hrun [Hord [Ham Hpo]]]]].
    exists w', (order :: intents).
    split.
    { unfold bind at 1. unfold ret at 1. unfold bind at 1.
      unfold datetime_now at 1. fold order.
      rewrite (bind_returns _ _ b w w1 Hplace).
      rewrite (bind_returns _ _ tt w1 w2 Hsleep). rewrite Hrun.
      f_equal. cbn [length]. lia. }
    split.
    { rewrite Hord, Hcalls. unfold w1. cbn [calls].
      rewrite orders_of_app. cbn [orders_of]. now rewrite <- app_assoc. }
    split; [cbn [map]; now rewrite Ham | cbn [map]; now rewrite Hpo].
Qed.

(** X17: a scaled entry stops at the first price offset that is not a
    number, and keeps what it did before.  When the levels before that
    one parse, their orders have been placed, in their order, no order
    is placed for the malformed level or any later one, and
    [execute_strategy] returns [False]. *)
Theorem accumulation_stops_at_malformed_offset (symbol : string)
    (instructions : Instructions) (good rest : list ScalingLevel)
    (bad : ScalingLevel) (offsets : list float) (w : World) :
  let pm := position_management (execution_instructions instructions) in
  ss_market_phase (signal_summary instructions) = "ACCUMULATION" ->
  em_type (pm_entry_method pm) = "scaled_entry" ->
  pm_scaling_levels pm = Some (good ++ bad :: rest) ->
  Forall2 (fun level offset =>
             parse_percentage (lvl_price_offset level) = ret offset)
          good offsets ->
  Py.float_of_str (Py.remove_char "%" (lvl_price_offset bad)) = None ->
  let w' := run (execute_strategy symbol instructions) w in
  result (execute_strategy symbol instructions) w = Return false
  /\ exists intents,
       orders_of (calls w') = orders_of (calls w) ++ intents
       /\ length intents = length good
       /\ map o_amount intents =
            map (fun level =>
                   (pm_position_size pm * (lvl_percentage level / 100))%float)
                good
       /\ map o_price_offset intents = map Some offsets.
Proof.
  intros pm Hphase Htype Hlevels Hoff Hbad w'. subst w'.
  set (w0 := mkWorld (self w) (service w) (clock w) (requests w)
               (calls w ++ [mkLogged (length (positions (self w)))
                              (CallExecuteStrategy symbol instructions)])).
  destruct (accumulation_orders_prefix symbol (pm_position_size pm)
              (risk_management (execution_instructions instructions))
              (Z.of_nat (length (good ++ bad :: rest))) good offsets
              (bad :: rest) 0 w0 Hoff)
    as [w1 [intents [Hrun [Hord [Ham Hpo]]]]].
  assert (Hstop : accumulation_orders symbol (pm_position_size pm)
                    (risk_management (execution_instructions instructions))
                    (Z.of_nat (length (good ++ bad :: rest)))
                    (0 + Z.of_nat (length good)) (bad :: rest) w1
                  = (Raise (Py.ValueError "could not convert string to float"),
                     w1)).
  { cbn [accumulation_orders]. unfold parse_percentage. rewrite Hbad.
    reflexivity. }
  assert (E : execute_strategy symbol instructions w = (Return false, w1)).
  { unfold execute_strategy. unfold bind at 1. unfold log_call at 1.
    fold w0. unfold try_except. rewrite Hphase.
    cbn [String.eqb Ascii.eqb Bool.eqb].
    unfold execute_accumulation_strategy. fold pm. rewrite Htype, Hlevels.
    cbn [String.eqb Ascii.eqb Bool.eqb item].
    unfold bind at 1. unfold bind at 1. unfold ret at 1.
    rewrite Hrun, Hstop. reflexivity. }
  unfold result, run. rewrite E. cbn [fst snd].
  split; [reflexivity|]. exists intents.
  split.
  { rewrite Hord. unfold w0. cbn [calls]. rewrite orders_of_app.
    cbn [orders_of]. now rewrite app_nil_r. }
  split; [|split; assumption].
  rewrite <- (length_map o_amount), Ham. apply length_map.
Qed.

Lemma accumulation_stops_at_malformed_offset_witness :
  let levels :=
    [mkLevel 40%float "-0.5%"; mkLevel 30%float "n/a"; mkLevel 30%float "-2%"] in
  let w := fresh_world (steady_service (sibling_accumulation levels)) in
  Py.float_of_str (Py.remove_char "%" "n/a") = None
  /\ result (execute_strategy "BTCUSDT" (sibling_accumulation levels)) w
     = Return false
  /\ length (positions (self (run (execute_strategy "BTCUSDT"
                                     (sibling_accumulation levels)) w)))
     = 1%nat.
Proof.
  intros levels w.
  assert (H : Py.float_of_str (Py.remove_char "%" "n/a") = None)
    by reflexivity.
  assert (F : Forall2 (fun level offset =>
                         parse_percentage (lvl_price_offset level) = ret offset)
                      [mkLevel 40%float "-0.5%"] [(-0.005)%float])
    by (repeat constructor).
  split; [exact H|]. split; [|reflexivity].
  exact (proj1 (accumulation_stops_at_malformed_offset "BTCUSDT"
                  (sibling_accumulation levels)
                  [mkLevel 40%float "-0.5%"] [mkLevel 30%float "-2%"]
                  (mkLevel 30%float "n/a") [(-0.005)%float] w
                  eq_refl eq_refl eq_refl F H)).
Defined.

(** X18: the ACCUMULATION arm acts on a scaled entry only.  With an
    entry method of any other type it returns [True] having placed no
    order and changed nothing in the bot, whether or not scaling levels
    are present. *)
Theorem accumulation_needs_scaled_entry (symbol : string)
    (instructions : Instructions) (w : World) :
  let pm := position_management (execution_instructions instructions) in
  ss_market_phase (signal_summary instructions) = "ACCUMULATION" ->
  em_type (pm_entry_method pm) <> "scaled_entry" ->
  let w' := run (execute_strategy symbol instructions) w in
  result (execute_strategy symbol instructions) w = Return true
  /\ orders_of (calls w') = orders_of (calls w)
  /\ self w' = self w.
Proof.
  intros pm Hphase Htype w'. subst w'. apply String.eqb_neq in Htype.
  unfold result, run, execute_strategy, try_except, bind, log_call.
  rewrite Hphase. cbn [String.eqb Ascii.eqb Bool.eqb].
  unfold execute_accumulation_strategy. fold pm. rewrite Htype. cbn.
  rewrite orders_of_app. cbn. now rewrite app_nil_r.
Qed.

Lemma accumulation_needs_scaled_entry_witness :
  let instructions :=
    sample_instructions "ACCUMULATION"
      (mkPositionMgmt (mkEntryMethod "immediate_entry" None None)
                      0.04%float (Some sample_levels)) in
  let w := fresh_world (steady_service instructions) in
  result (execute_strategy "BTCUSDT" instructions) w = Return true
  /\ self (run (execute_strategy "BTCUSDT" instructions) w) = self w.
Proof.
  intros instructions w.
  assert (H : em_type (pm_entry_method
                (position_management (execution_instructions instructions)))
              <> "scaled_entry") by discriminate.
  destruct (accumulation_needs_scaled_entry "BTCUSDT" instructions w
              eq_refl H) as [Hr [_ Hs]].
  split; [exact Hr | exact Hs].
Defined.

(** ** What [execute_strategy] reports *)






(* ===================================================================== *)
(** * Lookups in the ledger *)
(* ===================================================================== *)

Lemma NoDup_map_injective {A B} (f : A -> B) (l : list A) (x y : A) :
  NoDup (map f l) -> In x l -> In y l -> f x = f y -> x = y.
Proof.
  induction l as [|a l IH]; cbn [map]; intros H Hx Hy E; [destruct Hx|].
  inversion H as [|? ? Hnotin Hrest]; subst.
  destruct Hx as [<- | Hx], Hy as [<- | Hy]; auto.
  - exfalso. apply Hnotin. rewrite E. now apply in_map.
  - exfalso. apply Hnotin. rewrite <- E. now apply in_map.
Qed.

Lemma find_app_symbol (symbol : string) (l1 l2 : list Position) :
  find (fun p => String.eqb (p_symbol p) symbol) (l1 ++ l2)
  = match find (fun p => String.eqb (p_symbol p) symbol) l1 with
    | Some p => Some p
    | None => find (fun p => String.eqb (p_symbol p) symbol) l2
    end.
Proof.
  induction l1 as [|a l1 IH]; cbn [app find]; [reflexivity|].
  destruct (String.eqb (p_symbol a) symbol); [reflexivity | exact IH].
Qed.

Lemma find_filter_other_symbol (symbol : string) (position : Position)
    (l : list Position) :
  p_symbol position <> symbol ->
  find (fun p => String.eqb (p_symbol p) symbol)
       (filter (fun p => negb (position_eqb p position)) l)
  = find (fun p => String.eqb (p_symbol p) symbol) l.
Proof.
  intros Hother. induction l as [|a l IH]; cbn [filter find]; [reflexivity|].
  destruct (position_eqb a position) eqn:E; cbn [negb find].
  - apply position_eqb_symbol in E.
    destruct (String.eqb_spec (p_symbol a) symbol) as [Ea|_]; [|exact IH].
    congruence.
  - destruct (String.eqb (p_symbol a) symbol); [reflexivity | exact IH].
Qed.

(** X20: an order placement never changes what [get_position] finds
    for a symbol that already has an open position: the oldest open
    position of a symbol is the one returned.  For the symbol of the
    order, [get_position] returns the position just opened only when
    there was none before; for every other symbol its answer is
    unchanged. *)
Theorem get_position_after_placement (order : Order) (stop_loss : float)
    (take_profit : list float) (symbol : string) (w : World) :
  let w' :=
    run (simulate_order_placement order
           (mkRiskMgmt (Some stop_loss) (Some take_profit))) w in
  result (get_position symbol) w' =
    match result (get_position symbol) w with
    | Return None =>
        if String.eqb (o_symbol order) symbol
        then Return (Some (opened_position (self w) order stop_loss
                                           take_profit))
        else Return None
    | found => found
    end.
Proof.
  intros w'. subst w'. unfold run. rewrite simulate_order_placement_ok.
  unfold result, get_position, get_self, ret, bind.
  cbn [fst snd self positions]. rewrite find_app_symbol.
  destruct (find _ (positions (self w))); [reflexivity|].
  cbn [find opened_position p_symbol].
  destruct (String.eqb (o_symbol order) symbol); reflexivity.
Qed.

(** X21: in a ledger with at most one open position per symbol, the
    exit of the position that [get_position] finds for a symbol leaves
    none for that symbol, and does not change what [get_position]
    finds for any other symbol. *)
Theorem get_position_after_exit (symbol other : string) (position : Position)
    (reason : string) (w : World) :
  one_position_per_symbol (self w) ->
  result (get_position symbol) w = Return (Some position) ->
  let w' := run (simulate_position_exit position reason) w in
  result (get_position symbol) w' = Return None
  /\ (other <> symbol ->
      result (get_position other) w' = result (get_position other) w).
Proof.
  intros Huniq Hpos w'. subst w'.
  assert (Hfind : find (fun p => String.eqb (p_symbol p) symbol)
                       (positions (self w)) = Some position).
  { unfold result, get_position, bind, get_self, ret in Hpos. simpl in Hpos.
    now injection Hpos. }
  destruct (find_some _ _ Hfind) as [Hin Hsym]. apply String.eqb_eq in Hsym.
  unfold run. rewrite simulate_position_exit_ok.
  unfold result, get_position, get_self, ret, bind.
  cbn [fst snd self positions]. split.
  - f_equal. apply find_symbol_none. intros Hmem.
    apply in_map_iff in Hmem. destruct Hmem as [q [Hq Hqin]].
    apply filter_In in Hqin. destruct Hqin as [Hqin Hne].
    assert (q = position).
    { apply (NoDup_map_injective p_symbol (positions (self w))); auto.
      congruence. }
    subst q. now rewrite position_eqb_refl in Hne.
  - intros Hother. f_equal. apply find_filter_other_symbol. congruence.
Qed.

Lemma get_position_after_exit_witness :
  one_position_per_symbol (self one_position_world)
  /\ result (get_position "ETHUSDT") one_position_world
     = Return (Some other_position)
  /\ result (get_position "ETHUSDT")
            (run (simulate_position_exit other_position "manual")
                 one_position_world) = Return None.
Proof.
  assert (H1 : one_position_per_symbol (self one_position_world)).
  { unfold one_position_per_symbol. simpl.
    constructor; [intros [] | constructor]. }
  assert (H2 : result (get_position "ETHUSDT") one_position_world
               = Return (Some other_position)) by reflexivity.
  split; [exact H1|]. split; [exact H2|].
  exact (proj1 (get_position_after_exit "ETHUSDT" "BTCUSDT" other_position
                  "manual" one_position_world H1 H2)).
Defined.

(** X22: an order placement whose [risk_management] lacks the
    stop-loss price or the take-profit levels fails as a whole: it
    returns [False] and the bot is unchanged, with neither a position
    nor a trade recorded. *)
Theorem failed_placement_changes_nothing (order : Order)
    (risk_mgmt : RiskMgmt) (w : World) :
  rm_stop_loss_price risk_mgmt = None
  \/ rm_take_profit_levels risk_mgmt = None ->
  result (simulate_order_placement order risk_mgmt) w = Return false
  /\ self (run (simulate_order_placement order risk_mgmt) w) = self w.
Proof.
  destruct risk_mgmt as [[sl|] [tp|]]; cbn [rm_stop_loss_price
    rm_take_profit_levels]; intros [H | H]; try discriminate H;
    split; reflexivity.
Qed.

Lemma failed_placement_changes_nothing_witness :
  let order := mkOrder "BTCUSDT" "buy" 0.05%float None "market" None 0 in
  let w := one_position_world in
  rm_take_profit_levels (mkRiskMgmt (Some 48000%float) None) = None
  /\ positions (self (run (simulate_order_placement order
                             (mkRiskMgmt (Some 48000%float) None)) w))
     = [other_position].
Proof.
  intros order w. split; [reflexivity|].
  rewrite (proj2 (failed_placement_changes_nothing order
                    (mkRiskMgmt (Some 48000%float) None) w
                    (or_intror eq_refl))).
  reflexivity.
Defined.

(** X23: the DISTRIBUTION arm keeps the ledger at one open position
    per symbol: it closes the position found for the symbol before it
    opens a new one, so that from a ledger with at most one open
    position per symbol it leaves at most one per symbol. *)
Theorem distribution_keeps_one_position_per_symbol (symbol : string)
    (instructions : Instructions) (w : World) :
  ss_market_phase (signal_summary instructions) = "DISTRIBUTION" ->
  one_position_per_symbol (self w) ->
  one_position_per_symbol (self (run (execute_strategy symbol instructions) w)).
Proof.
  intros Hphase Huniq. unfold one_position_per_symbol in *.
  unfold run, execute_strategy, try_except, bind, log_call.
  rewrite Hphase. cbn [String.eqb Ascii.eqb Bool.eqb].
  unfold execute_distribution_strategy, get_position, get_self, ret, bind.
  cbn [self positions].
  set (pm := position_management (execution_instructions instructions)).
  assert (Hbase : forall base,
             NoDup (map p_symbol base) -> ~ In symbol (map p_symbol base) ->
             forall bot' order sl tp,
               o_symbol order = symbol ->
               positions bot' = base ->
               NoDup (map p_symbol
                        (positions (after_open bot' order sl tp)))).
  { intros base Hnd Hnin bot' order sl tp Ho Hb.
    cbn [after_open positions]. rewrite map_app, Hb. cbn [map].
    apply NoDup_snoc. split; [exact Hnd|].
    cbn [opened_position p_symbol]. now rewrite Ho. }
  destruct (find _ (positions (self w))) as [p|] eqn:Hfind.
  - destruct (find_some _ _ Hfind) as [Hin Hsym]. apply String.eqb_eq in Hsym.
    rewrite simulate_position_exit_ok.
    set (base := filter (fun q => negb (position_eqb q p))
                        (positions (self w))).
    assert (Hnd : NoDup (map p_symbol base)) by now apply NoDup_map_filter.
    assert (Hnin : ~ In symbol (map p_symbol base)).
    { intros Hmem. apply in_map_iff in Hmem. destruct Hmem as [q [Hq Hqin]].
      apply filter_In in Hqin. destruct Hqin as [Hqin Hne].
      assert (q = p).
      { apply (NoDup_map_injective p_symbol (positions (self w))); auto.
        congruence. }
      subst q. now rewrite position_eqb_refl in Hne. }
    destruct (0 <? pm_position_size pm)%float.
    + unfold datetime_now. cbn [clock]. place_order b bot' Hbot.
      cbn [snd self].
      destruct Hbot as [-> | [sl [tp ->]]]; cbn [self]; [exact Hnd|].
      eapply Hbase; eauto.
    + cbn [snd self positions]. exact Hnd.
  - apply find_symbol_none in Hfind.
    destruct (0 <? pm_position_size pm)%float.
    + unfold datetime_now. cbn [clock]. place_order b bot' Hbot.
      cbn [snd self].
      destruct Hbot as [-> | [sl [tp ->]]]; cbn [self]; [exact Huniq|].
      eapply Hbase; eauto.
    + cbn [snd self]. exact Huniq.
Qed.

Lemma distribution_keeps_one_position_per_symbol_witness :
  let instructions :=
    sample_instructions "DISTRIBUTION"
      (mkPositionMgmt (mkEntryMethod "market" None None) 0.02%float None) in
  one_position_per_symbol (self one_position_world)
  /\ map p_side (positions (self (run (execute_strategy "ETHUSDT" instructions)
                                      one_position_world))) = ["short"]
  /\ one_position_per_symbol
       (self (run (execute_strategy "ETHUSDT" instructions)
                  one_position_world)).
Proof.
  intros instructions.
  assert (H1 : one_position_per_symbol (self one_position_world)).
  { unfold one_position_per_symbol. simpl.
    constructor; [intros [] | constructor]. }
  split; [exact H1|]. split; [reflexivity|].
  exact (distribution_keeps_one_position_per_symbol "ETHUSDT" instructions
           one_position_world eq_refl H1).
Defined.

(* ===================================================================== *)
(** * Concrete runs of the earlier lemmas *)
(* ===================================================================== *)

(** An open short position for ETHUSDT and a DISTRIBUTION signal with
    a percentage of 0.02. *)
Lemma distribution_exit_precedes_order_witness :
  let pm := mkPositionMgmt (mkEntryMethod "market" None None) 0.02%float None in
  result (get_position "ETHUSDT") one_position_world
    = Return (Some other_position)
  /\ (0 <? pm_position_size pm)%float = true
  /\ map what
       (calls (run (execute_distribution_strategy "ETHUSDT" pm sample_risk)
                   one_position_world))
     = [CallPositionExit other_position "distribution_exit";
        CallOrderPlacement
          (mkOrder "ETHUSDT" "sell" 0.02%float None "market" None 9)
          sample_risk].
Proof.
  intros pm.
  assert (H1 : result (get_position "ETHUSDT") one_position_world
               = Return (Some other_position)) by reflexivity.
  assert (H2 : (0 <? pm_position_size pm)%float = true) by reflexivity.
  split; [exact H1|]. split; [exact H2|].
  exact (distribution_exit_precedes_order "ETHUSDT" pm sample_risk
           other_position one_position_world H1 H2).
Defined.

Lemma parse_percentage_follows_rule_witness :
  Py.remove_char "%" "-0.1" = "-0.1"
  /\ result (parse_percentage "-0.1%") one_position_world
     = Return (-0.001)%float.
Proof.
  assert (H : Py.remove_char "%" "-0.1" = "-0.1") by reflexivity.
  split; [exact H|].
  rewrite (parse_percentage_follows_rule "-0.1" one_position_world H "-0.1%"
             (or_intror eq_refl)).
  reflexivity.
Defined.
